(** * plotting.py: grid normalisation and the comparison drivers

    A shallow embedding of [src/plotting.py].  Python values are modelled
    by the data the functions really inspect:

    - an [ndarray] is its [shape] tuple together with its flat (C order)
      buffer; [pdf.size] is the product of the shape and assigning
      [pdf.shape] keeps the buffer;
    - an axis ([x], [y], the result of [np.linspace]) is a list of
      rationals; [None] is [option]'s [None];
    - a raised exception is the [Raise] branch of [outcome];
    - matplotlib's figures live in an explicit [pyplot] store that the
      rendering functions thread through the monad [M], so that what was
      drawn before an exception stays visible. *)

From Stdlib Require Import String Ascii List Arith ZArith QArith Bool Lia.
From Stdlib Require Import DecimalString.
From Stdlib Require Import Permutation.
From Stdlib Require DecimalZ DecimalPos.
Import ListNotations.

Local Open Scope nat_scope.

(** ** Exceptions and results *)

Inductive exn : Type :=
| ValueError (msg : string)
| TypeError (msg : string)
| UnboundLocalError (var : string)
| AssertionError
| IndexError (msg : string)
| OtherError (msg : string).

Inductive outcome (A : Type) : Type :=
| Ok (a : A)
| Raise (e : exn).

Arguments Ok {A} a.
Arguments Raise {A} e.

Definition obind {A B} (c : outcome A) (k : A -> outcome B) : outcome B :=
  match c with
  | Ok a => k a
  | Raise e => Raise e
  end.

Declare Scope outcome_scope.
Delimit Scope outcome_scope with outcome.
Notation "x <-! c ; k" := (obind c (fun x => k))
  (at level 61, c at next level, right associativity) : outcome_scope.

(** [except TypeError]: the handler runs for that class only. *)
Definition is_TypeError (e : exn) : bool :=
  match e with
  | TypeError _ => true
  | _ => false
  end.

Definition try_except_TypeError {A} (body handler : outcome A) : outcome A :=
  match body with
  | Ok a => Ok a
  | Raise e => if is_TypeError e then handler else Raise e
  end.

(** ** numpy arrays *)

Definition axis := list Q.

Record ndarray : Type := mk_ndarray {
  shape : list nat;
  data : list Q
}.

Definition prod_shape (sh : list nat) : nat := fold_right Nat.mul 1 sh.

(** [pdf.size] *)
Definition size (a : ndarray) : nat := prod_shape (shape a).

(** [len(pdf.shape)] *)
Definition ndim (a : ndarray) : nat := length (shape a).

(** [pdf.shape = sh]: numpy refuses a shape with another element count. *)
Definition set_shape (a : ndarray) (sh : list nat) : outcome ndarray :=
  if prod_shape sh =? size a
  then Ok (mk_ndarray sh (data a))
  else Raise (ValueError "cannot reshape array"%string).

(** [pdf.shape[i]] *)
Definition shape_at (a : ndarray) (i : nat) : outcome nat :=
  match nth_error (shape a) i with
  | Some d => Ok d
  | None => Raise (IndexError "tuple index out of range"%string)
  end.

(** [int(n ** 0.5)].  The float power is exact on the element counts an
    array in memory can have (below [2^52]), where truncating it gives the
    integer square root. *)
Definition int_pow_half (n : nat) : nat := Nat.sqrt n.

Definition Qnat (n : nat) : Q := inject_Z (Z.of_nat n).

Fixpoint set_last (l : list Q) (v : Q) : list Q :=
  match l with
  | [] => []
  | [_] => [v]
  | a :: t => a :: set_last t v
  end.

(** [np.linspace(start, stop, num)] with the default [endpoint=True]:
    [arange(num) * step + start] where [step = (stop - start) / (num - 1)],
    the last point overwritten by [stop] when there are at least two. *)
Definition linspace (start stop : Q) (num : nat) : axis :=
  let div := num - 1 in
  let delta := (stop - start)%Q in
  let y := map Qnat (seq 0 num) in
  let y := if 0 <? div
           then map (fun v => (v * (delta / Qnat div))%Q) y
           else map (fun v => (v * delta)%Q) y in
  let y := map (fun v => (v + start)%Q) y in
  if 1 <? num then set_last y stop else y.

(** ** The grid normaliser *)

Definition msg_infer : string :=
  "Cannot infer shape of flattened data array pdf since it does not have a square number of elements."%string.
Definition msg_pairing : string := "x and y must be both set or both unset"%string.
Definition msg_mismatch : string := "shapes of x,y and pdf do not match"%string.

(** [indexes]: [None], or a sequence whose entries are axes (or [None]). *)
Definition indexes_t := option (list (option axis)).

(** Lines 36-40: the entries of [indexes] replace [x] and [y]. *)
Definition apply_indexes (x y : option axis) (indexes : indexes_t)
  : option axis * option axis :=
  match indexes with
  | None => (x, y)
  | Some ix =>
      let x := if 0 <? length ix then nth 0 ix None else x in
      let y := if 1 <? length ix then nth 1 ix None else y in
      (x, y)
  end.

(** Line 67: the closing assertion. *)
Definition check_postcondition (pdf : ndarray) (x y : axis)
  : outcome (ndarray * axis * axis) :=
  (d0 <-! shape_at pdf 0;
   if negb (d0 =? length x) then Raise AssertionError else
   d1 <-! shape_at pdf 1;
   if negb (d1 =? length y) then Raise AssertionError else
   Ok (pdf, x, y))%outcome.

(** Lines 43-53: the local [s] is bound in the one-dimensional branch
    only; [None] stands for the unbound name. *)
Definition infer_side (pdf : ndarray) : outcome (ndarray * option nat) :=
  if ndim pdf =? 2 then Ok (pdf, None)
  else if ndim pdf =? 1 then
    (n <-! shape_at pdf 0;
     let s := int_pow_half n in
     if s ^ 2 =? n
     then (pdf' <-! set_shape pdf [s; s]; Ok (pdf', Some s))
     else Raise (ValueError msg_infer))%outcome
  else Ok (pdf, None).

Definition _validate_infer_indexes
  (pdf : ndarray) (x y : option axis) (indexes : indexes_t)
  : outcome (ndarray * axis * axis) :=
  let '(x, y) := apply_indexes x y indexes in
  match x, y with
  | None, None =>
      (r <-! infer_side pdf;
       let '(pdf, s) := r in
       match s with
       | None => Raise (UnboundLocalError "s"%string)
       | Some s =>
           let x := linspace 0 1 s in
           let y := linspace 0 1 s in
           check_postcondition pdf x y
       end)%outcome
  | None, Some _ | Some _, None => Raise (TypeError msg_pairing)
  | Some x, Some y =>
      if negb (size pdf =? length x * length y)
      then Raise (ValueError msg_mismatch)
      else (pdf <-! set_shape pdf [length x; length y];
            check_postcondition pdf x y)%outcome
  end.

(** ** Strings: [str] and [str.format] *)

(** [str(n)] of an integer. *)
Definition str_int (z : Z) : string := NilZero.string_of_int (Z.to_int z).

Fixpoint join (sep : string) (l : list string) : string :=
  match l with
  | [] => EmptyString
  | [a] => a
  | a :: t => (a ++ sep ++ join sep t)%string
  end.

(** The resolution argument [k]: an integer or a sequence of integers. *)
Inductive kval : Type :=
| KInt (z : Z)
| KSeq (ks : list Z).

(** [str(k)], as [str.format] renders its argument. *)
Definition str_kval (k : kval) : string :=
  match k with
  | KInt z => str_int z
  | KSeq ks => ("[" ++ join ", " (map str_int ks) ++ "]")%string
  end.

(** [s.format(arg)] for a template with one [{}] field. *)
Fixpoint format1 (s : string) (arg : string) : string :=
  match s with
  | String "{"%char (String "}"%char rest) => (arg ++ rest)%string
  | String c rest => String c (format1 rest arg)
  | EmptyString => EmptyString
  end.

Definition DEFAULT_LABELS : list string :=
  ["old"; "vertical"; "horizontal"]%string.

(** The templates of lines 225 and 230. *)
Definition combined_templates : list string :=
  ["old (k={})"; "vertical (k={})"; "horizonal (k={})"]%string.

(** [[s.format(ki) for s in [...]]] *)
Definition combined_labels (ki : kval) : list string :=
  map (fun s => format1 s (str_kval ki)) combined_templates.

(** [['L' + str(i + 1) for i in range(len(levels) + 1)]] *)
Definition level_labels (levels : list Q) : list string :=
  map (fun i => ("L" ++ str_int (Z.of_nat (i + 1)))%string)
      (seq 0 (length levels + 1)).

(** [np.unique]: the distinct values in ascending order. *)
Fixpoint insert_unique (v : Q) (l : list Q) : list Q :=
  match l with
  | [] => [v]
  | a :: t =>
      if Qeq_bool v a then l
      else if Qle_bool v a then v :: l
      else a :: insert_unique v t
  end.

Definition np_unique (l : list Q) : list Q := fold_right insert_unique [] l.

(** ** The pyplot store *)

Inductive artist : Type :=
| Bar (labels : list string) (heights : list Q)
| Contour (x y : axis) (z : ndarray) (levels : list Q).

Record axes : Type := mk_axes {
  title : string;
  artists : list artist
}.

Record figure : Type := mk_figure {
  figsize : nat * nat;
  fig_axes : list axes
}.

Record pyplot : Type := mk_pyplot {
  figures : list figure;
  shown : nat
}.

(** An [Axes] object is named by its figure and its column. *)
Definition axes_ref : Type := nat * nat.

(** What [plt.subplots] hands back as [ax]: with the default
    [squeeze=True] a one-by-one grid gives the [Axes] object itself, a
    one-by-[n] grid an array of [n] of them. *)
Inductive axes_obj : Type :=
| OneAxes (r : axes_ref)
| AxesArray (rs : list axes_ref).

(** The state and exception monad of the rendering code: an exception
    leaves the store as it was when it was raised. *)
Definition M (A : Type) : Type := pyplot -> outcome A * pyplot.

Definition ret {A} (a : A) : M A := fun st => (Ok a, st).

Definition bind {A B} (c : M A) (k : A -> M B) : M B :=
  fun st =>
    match c st with
    | (Ok a, st') => k a st'
    | (Raise e, st') => (Raise e, st')
    end.

Definition raise {A} (e : exn) : M A := fun st => (Raise e, st).

Definition lift {A} (c : outcome A) : M A := fun st => (c, st).

Declare Scope M_scope.
Delimit Scope M_scope with M.
Notation "x <- c ;; k" := (bind c (fun x => k))
  (at level 61, c at next level, right associativity) : M_scope.
Notation "' pat <- c ;; k" := (bind c (fun x => match x with pat => k end))
  (at level 61, pat pattern, c at next level, right associativity) : M_scope.
Notation "c ;; k" := (bind c (fun _ => k))
  (at level 61, right associativity) : M_scope.

(** [for v in l: body] *)
Fixpoint for_each {A} (l : list A) (body : A -> M unit) : M unit :=
  match l with
  | [] => ret tt
  | a :: t => (body a ;; for_each t body)%M
  end.

Definition enumerate {A} (l : list A) : list (nat * A) :=
  combine (seq 0 (length l)) l.

(** [l[i]] on a list. *)
Definition list_getitem {A} (l : list A) (i : nat) : outcome A :=
  match nth_error l i with
  | Some a => Ok a
  | None => Raise (IndexError "list index out of range"%string)
  end.

Definition blank_axes : axes := mk_axes EmptyString [].

(** [plt.subplots(figsize=..., nrows=1, ncols=n)].  An empty grid is
    refused after the figure was made (no result below depends on this
    case). *)
Definition plt_subplots (fsize : nat * nat) (ncols : nat) : M axes_obj :=
  fun st =>
    let fid := length (figures st) in
    if ncols =? 0 then
      (Raise (ValueError "Number of columns must be a positive integer"%string),
       mk_pyplot (figures st ++ [mk_figure fsize []]) (shown st))
    else
      let st' := mk_pyplot (figures st ++ [mk_figure fsize (repeat blank_axes ncols)])
                           (shown st) in
      if ncols =? 1 then (Ok (OneAxes (fid, 0)), st')
      else (Ok (AxesArray (map (pair fid) (seq 0 ncols))), st').

(** [ax[i]] *)
Definition ax_getitem (ax : axes_obj) (i : nat) : outcome axes_ref :=
  match ax with
  | OneAxes _ => Raise (TypeError "'Axes' object is not subscriptable"%string)
  | AxesArray rs =>
      match nth_error rs i with
      | Some r => Ok r
      | None => Raise (IndexError "index out of bounds"%string)
      end
  end.

(** [iter(ax)], as [zip] takes it. *)
Definition ax_iter (ax : axes_obj) : outcome (list axes_ref) :=
  match ax with
  | OneAxes _ => Raise (TypeError "'Axes' object is not iterable"%string)
  | AxesArray rs => Ok rs
  end.

Fixpoint update_nth {A} (n : nat) (f : A -> A) (l : list A) : list A :=
  match n, l with
  | _, [] => []
  | 0, a :: t => f a :: t
  | S n, a :: t => a :: update_nth n f t
  end.

Definition update_axes (r : axes_ref) (f : axes -> axes) : M unit :=
  fun st =>
    (Ok tt,
     mk_pyplot
       (update_nth (fst r)
          (fun fg => mk_figure (figsize fg) (update_nth (snd r) f (fig_axes fg)))
          (figures st))
       (shown st)).

(** [axis.set_title(label)] *)
Definition set_title (r : axes_ref) (label : string) : M unit :=
  update_axes r (fun a => mk_axes label (artists a)).

Definition add_artist (r : axes_ref) (art : artist) : M unit :=
  update_axes r (fun a => mk_axes (title a) (artists a ++ [art])).

(** [plt.show()] *)
Definition plt_show : M unit :=
  fun st => (Ok tt, mk_pyplot (figures st) (S (shown st))).

Fixpoint zip3 {A B C} (la : list A) (lb : list B) (lc : list C)
  : list (A * B * C) :=
  match la, lb, lc with
  | a :: ta, b :: tb, c :: tc => (a, b, c) :: zip3 ta tb tc
  | _, _, _ => []
  end.

(** ** The collaborators

    The level schemes of [iso_levels], [stats.contour_level_weight] and the
    argument validation that matplotlib's [Axes.bar] and [Axes.contour]
    perform are not part of this file: the drivers are written against
    this interface.  A check answers [None] when it accepts the call. *)
Class Collaborators : Type := {
  equi_value : ndarray -> kval -> outcome (list Q);
  equi_prob_per_level : ndarray -> kval -> outcome (list Q);
  equi_horizontal_prob_per_level : ndarray -> kval -> outcome (list Q);
  contour_level_weight : list Q -> ndarray -> outcome (list Q);
  bar_check : list string -> list Q -> option exn;
  contour_check : axis -> axis -> ndarray -> list Q -> option exn
}.

Definition msg_lengths : string :=
  "All arguments must be sequences of equal length."%string.

(** ** The drivers *)

Section Drivers.

Context {ext : Collaborators}.

(** [ax[i].bar(level_labels, sum_prob)] on an axes already looked up. *)
Definition axes_bar (r : axes_ref) (labels : list string) (heights : list Q)
  : M unit :=
  match bar_check labels heights with
  | Some e => raise e
  | None => add_artist r (Bar labels heights)
  end.

(** [axis.contour(x, y, pdf, levels=...)] *)
Definition axes_contour (r : axes_ref) (x y : axis) (z : ndarray)
  (levels : list Q) : M unit :=
  match contour_check x y z levels with
  | Some e => raise e
  | None => add_artist r (Contour x y z levels)
  end.

Definition plot_contour_levels_stat
  (levels_lst : list (list Q)) (pdf_lst : list ndarray) (labels : list string)
  : M unit :=
  if negb (length levels_lst =? length pdf_lst)
     || negb (length levels_lst =? length labels)
  then raise (ValueError msg_lengths)
  else
    let n := length levels_lst in
    (ax <- plt_subplots (4 * n, 2) n ;;
     for_each (enumerate (combine levels_lst pdf_lst))
       (fun '(i, (levels, pdf)) =>
          sum_prob <- lift (contour_level_weight levels pdf) ;;
          let level_labels := level_labels levels in
          a <- lift (ax_getitem ax i) ;;
          axes_bar a level_labels sum_prob ;;
          a <- lift (ax_getitem ax i) ;;
          label <- lift (list_getitem labels i) ;;
          set_title a label))%M.

Definition contour_comparision_plot_2d
  (levels_lst : list (list Q)) (pdf : ndarray) (x y : option axis)
  (indexes : indexes_t) (labels : list string) : M unit :=
  ('(pdf, x, y) <- lift (_validate_infer_indexes pdf x y indexes) ;;
   let n := length levels_lst in
   ax <- plt_subplots (4 * n, 4) n ;;
   axs <- lift (ax_iter ax) ;;
   for_each (enumerate (zip3 axs labels levels_lst))
     (fun '(i, (axis, label, levels)) =>
        axes_contour axis x y pdf (np_unique levels) ;;
        set_title axis label) ;;
   plt_show)%M.

(** The three schemes at one resolution, in the order of lines 211-213
    (and of lines 215-217). *)
Definition scheme_levels (p : ndarray) (ki : kval)
  : outcome (list Q * list Q * list Q) :=
  (a <-! equi_value p ki;
   b <-! equi_prob_per_level p ki;
   c <-! equi_horizontal_prob_per_level p ki;
   Ok (a, b, c))%outcome.

Definition level_lists : Type :=
  (list (list Q) * list (list Q) * list (list Q))%type.

(** The body of the [for ki in k] loop of lines 210-213. *)
Fixpoint levels_loop (p : ndarray) (ks : list Z) (acc : level_lists)
  : outcome level_lists :=
  match ks with
  | [] => Ok acc
  | ki :: rest =>
      let '(pdf_lvls, prob_lvls, prob_hori_lvls) := acc in
      (r <-! scheme_levels p (KInt ki);
       let '(a, b, c) := r in
       levels_loop p rest
         (pdf_lvls ++ [a], prob_lvls ++ [b], prob_hori_lvls ++ [c]))%outcome
  end.

(** Lines 207-213: iterating an integer raises [TypeError]. *)
Definition try_body (p : ndarray) (k : kval)
  : outcome (level_lists * list kval) :=
  match k with
  | KInt _ => Raise (TypeError "'int' object is not iterable"%string)
  | KSeq ks =>
      (r <-! levels_loop p ks ([], [], []);
       Ok (r, map KInt ks))%outcome
  end.

(** Lines 215-218: the handler. *)
Definition except_body (p : ndarray) (k : kval)
  : outcome (level_lists * list kval) :=
  (r <-! scheme_levels p k;
   let '(a, b, c) := r in
   Ok (([a], [b], [c]), [k]))%outcome.

Definition plot_combined
  (p : ndarray) (x y : option axis) (indexes : indexes_t) (k : kval)
  : M unit :=
  ('(p, x, y) <- lift (_validate_infer_indexes p x y indexes) ;;
   '(pdf_lvls, prob_lvls, prob_hori_lvls, k) <-
      lift (try_except_TypeError (try_body p k) (except_body p k)) ;;
   for_each (enumerate k)
     (fun '(i, ki) =>
        l0 <- lift (list_getitem pdf_lvls i) ;;
        l1 <- lift (list_getitem prob_lvls i) ;;
        l2 <- lift (list_getitem prob_hori_lvls i) ;;
        let levels := [l0; l1; l2] in
        plot_contour_levels_stat levels (repeat p (length levels))
          (combined_labels ki)) ;;
   for_each (enumerate k)
     (fun '(i, ki) =>
        l0 <- lift (list_getitem pdf_lvls i) ;;
        l1 <- lift (list_getitem prob_lvls i) ;;
        l2 <- lift (list_getitem prob_hori_lvls i) ;;
        contour_comparision_plot_2d [l0; l1; l2] p (Some x) (Some y) None
          (combined_labels ki)))%M.

End Drivers.

(** ** Vocabulary of the statements *)




(** Exactly one of the two axis arguments is set. *)
Definition exactly_one_set (x y : option axis) : Prop :=
  (x = None /\ y <> None) \/ (x <> None /\ y = None).


(** The title of the [i]-th scheme's subplot at resolution [ki]. *)
Definition scheme_title (i : nat) (ki : kval) : string :=
  nth i (combined_labels ki) EmptyString.

Definition levels3 : Type := (list Q * list Q * list Q)%type.

(** The figure a bar comparison of three schemes leaves in the store. *)
Definition bar_figure (ki : kval) (ls ws : levels3) : figure :=
  let '(l0, l1, l2) := ls in
  let '(w0, w1, w2) := ws in
  mk_figure (12, 2)
    [mk_axes (scheme_title 0 ki) [Bar (level_labels l0) w0];
     mk_axes (scheme_title 1 ki) [Bar (level_labels l1) w1];
     mk_axes (scheme_title 2 ki) [Bar (level_labels l2) w2]].

(** The figure a contour comparison of three schemes leaves. *)
Definition contour_figure (ki : kval) (g : ndarray) (xa ya : axis)
  (ls : levels3) : figure :=
  let '(l0, l1, l2) := ls in
  mk_figure (12, 4)
    [mk_axes (scheme_title 0 ki) [Contour xa ya g (np_unique l0)];
     mk_axes (scheme_title 1 ki) [Contour xa ya g (np_unique l1)];
     mk_axes (scheme_title 2 ki) [Contour xa ya g (np_unique l2)]].

(** The collaborators go along with one scheme: the weights are computed
    and matplotlib accepts the bar and the contour call. *)
Definition scheme_renders {ext : Collaborators}
  (g : ndarray) (xa ya : axis) (l w : list Q) : Prop :=
  contour_level_weight l g = Ok w /\
  bar_check (level_labels l) w = None /\
  contour_check xa ya g (np_unique l) = None.

Definition renders_ok {ext : Collaborators}
  (g : ndarray) (xa ya : axis) (ls ws : levels3) : Prop :=
  let '(l0, l1, l2) := ls in
  let '(w0, w1, w2) := ws in
  scheme_renders g xa ya l0 w0 /\
  scheme_renders g xa ya l1 w1 /\
  scheme_renders g xa ya l2 w2.

(** ** Sample inputs and collaborators, for concrete runs *)

Definition pdf4 : ndarray := mk_ndarray [4] [1; 2; 3; 4]%Q.
Definition pdf5 : ndarray := mk_ndarray [5] [1; 2; 3; 4; 5]%Q.
Definition pdf6 : ndarray := mk_ndarray [6] [1; 2; 3; 4; 5; 6]%Q.
Definition pdf2x2 : ndarray := mk_ndarray [2; 2] [1; 2; 3; 4]%Q.

(** Stand-ins that answer like the real routines do on their domain: a
    scheme wants an integer [k] and gives [k - 1] thresholds, the weights
    are one more than the thresholds, [bar] wants as many heights as
    labels, [contour] wants a grid of at least two by two with [len(x)]
    columns and [len(y)] rows. *)
Definition sample_thresholds (offset : Q) (z : Z) : list Q :=
  map (fun i => (offset + Qnat i)%Q) (seq 1 (Z.to_nat z - 1)).

Definition sample_scheme (offset : Q) (p : ndarray) (k : kval)
  : outcome (list Q) :=
  match k with
  | KInt z =>
      if (z <? 1)%Z then Raise (ValueError "k must be at least 1"%string)
      else Ok (sample_thresholds offset z)
  | KSeq _ => Raise (TypeError "k must be an integer"%string)
  end.

Definition sample_weights (levels : list Q) : list Q :=
  repeat (1 # 1)%Q (length levels + 1).

Definition sample_contour_check (x y : axis) (z : ndarray) (levels : list Q)
  : option exn :=
  match shape z with
  | [rows; cols] =>
      if (2 <=? rows) && (2 <=? cols)
         && (length x =? cols) && (length y =? rows)
      then None
      else Some (TypeError "x, y and z do not agree"%string)
  | _ => Some (TypeError "Input z must be 2D"%string)
  end.

#[local] Instance sample_collaborators : Collaborators := {
  equi_value := sample_scheme 0;
  equi_prob_per_level := sample_scheme (1 # 2);
  equi_horizontal_prob_per_level := sample_scheme (1 # 4);
  contour_level_weight levels p := Ok (sample_weights levels);
  bar_check labels heights :=
    if length labels =? length heights then None
    else Some (ValueError "shape mismatch"%string);
  contour_check := sample_contour_check
}.

Definition empty_pyplot : pyplot := mk_pyplot [] 0.

(** What the stand-ins answer at the integer resolution [z]. *)
Definition sample_levels (z : Z) : levels3 :=
  (sample_thresholds 0 z, sample_thresholds (1 # 2) z,
   sample_thresholds (1 # 4) z).

Definition sample_weights3 (ls : levels3) : levels3 :=
  let '(l0, l1, l2) := ls in
  (sample_weights l0, sample_weights l1, sample_weights l2).

Definition grid2x2 : ndarray := mk_ndarray [2; 2] [1; 2; 3; 4]%Q.
Definition unit_axis2 : axis := [0; 1]%Q.

(** ** The single-axes plots (lines 71-136)

    [add_level_lines], [add_cross_lines], [plot_density],
    [plot_cumulative_density] and [contour] draw on one [Axes] object, the
    one they are given or the one of a figure they make.  They are
    modelled by the calls they issue, in order: an exception keeps the
    calls made before it. *)

(** The keyword arguments the callers of this file pass on. *)
Record kwargs : Type := mk_kwargs {
  kw_color : option string;
  kw_lw : option Q;
  kw_dashes : option (list nat)
}.

Inductive call : Type :=
| PltFigure
| AddSubplot (position : nat)
| AxSetTitle (label : string)
| AxHLine (y : Q) (kw : kwargs)
| AxVLine (x : nat) (kw : kwargs)
| AxStep (xs : list nat) (ys : list Q)
| AxContour (x y : axis) (z : ndarray).

Definition W (A : Type) : Type := (outcome A * list call)%type.

Definition wret {A} (a : A) : W A := (Ok a, []).

Definition wbind {A B} (c : W A) (k : A -> W B) : W B :=
  match c with
  | (Ok a, t) => let '(r, t') := k a in (r, t ++ t')
  | (Raise e, t) => (Raise e, t)
  end.

Definition emit (c : call) : W unit := (Ok tt, [c]).

Definition wlift {A} (c : outcome A) : W A := (c, []).

Declare Scope W_scope.
Delimit Scope W_scope with W.
Notation "x <~ c ;; k" := (wbind c (fun x => k))
  (at level 61, c at next level, right associativity) : W_scope.
Notation "c ;;; k" := (wbind c (fun _ => k))
  (at level 61, right associativity) : W_scope.

Fixpoint wfor_each {A} (l : list A) (body : A -> W unit) : W unit :=
  match l with
  | [] => wret tt
  | a :: t => (body a ;;; wfor_each t body)%W
  end.

(** [p.flatten()]: the one-dimensional copy. *)
Definition flatten (p : ndarray) : ndarray := mk_ndarray [size p] (data p).

(** [np.sort] of a one-dimensional array: ascending. *)
Fixpoint insert_sorted (v : Q) (l : list Q) : list Q :=
  match l with
  | [] => [v]
  | a :: t => if Qle_bool v a then v :: l else a :: insert_sorted v t
  end.

Definition np_sort (l : list Q) : list Q := fold_right insert_sorted [] l.

(** [np.cumsum] *)
Fixpoint cumsum_from (acc : Q) (l : list Q) : list Q :=
  match l with
  | [] => []
  | a :: t => (acc + a)%Q :: cumsum_from (acc + a)%Q t
  end.

Definition np_cumsum (l : list Q) : list Q := cumsum_from 0 l.

(** [np.arange(n)] *)
Definition np_arange (n : nat) : list nat := seq 0 n.

(** [utils.crossing_indexes] is not part of this file. *)
Class Utils : Type := {
  crossing_indexes : list Q -> list Q -> outcome (list nat)
}.

Definition no_kwargs : kwargs := mk_kwargs None None None.
Definition grey_thin : kwargs := mk_kwargs (Some "grey"%string) (Some (1 # 2)) None.
Definition black_thin : kwargs := mk_kwargs (Some "black"%string) (Some (1 # 2)) None.
Definition black_dashed : kwargs :=
  mk_kwargs (Some "black"%string) (Some (1 # 2)) (Some [2; 6]).

Section SingleAxesPlots.

Context {utils : Utils}.

Definition add_level_lines (levels : list Q) (kw : kwargs) : W unit :=
  wfor_each levels (fun lvl => emit (AxHLine lvl kw)).

Definition add_cross_lines (levels : list Q) (p : list Q) (kw : kwargs)
  : W unit :=
  (crossings <~ wlift (crossing_indexes levels p) ;;
   wfor_each crossings (fun v => emit (AxVLine v kw)))%W.

(** [if ax is None: figure = plt.figure(); ax = figure.add_subplot(111)];
    [true] stands for an [ax] that was passed in. *)
Definition ensure_axes (ax_given : bool) : W unit :=
  if ax_given then wret tt
  else (emit PltFigure ;;; emit (AddSubplot 111))%W.

Definition plot_density (levels : list Q) (p : ndarray) (ax_given : bool)
  : W unit :=
  let p := flatten p in
  let p_sorted := np_sort (data p) in
  (ensure_axes ax_given ;;;
   emit (AxSetTitle "density") ;;;
   emit (AxHLine 0 grey_thin) ;;;
   add_level_lines levels black_thin ;;;
   add_cross_lines levels p_sorted black_dashed ;;;
   emit (AxStep (np_arange (size p)) p_sorted))%W.

Definition plot_cumulative_density (levels : list Q) (p : ndarray)
  (ax_given : bool) : W unit :=
  let p := flatten p in
  let p_sorted := np_sort (data p) in
  let p_cumsum := np_cumsum p_sorted in
  (level_cross_idx <~ wlift (crossing_indexes levels p_sorted) ;;
   ensure_axes ax_given ;;;
   emit (AxSetTitle "cumulative density") ;;;
   emit (AxHLine 0 grey_thin) ;;;
   add_cross_lines levels (data p) black_dashed ;;;
   emit (AxStep (np_arange (size p)) p_cumsum))%W.

Definition contour (p : ndarray) (x y : axis) (ax_given : bool) : W unit :=
  (ensure_axes ax_given ;;;
   emit (AxContour x y p))%W.

End SingleAxesPlots.

(** ** Further vocabulary *)

(** The array holds as many values as its shape says. *)
Definition well_formed (a : ndarray) : Prop := length (data a) = size a.


(** Ascending, neighbours compared with [<=]. *)
Fixpoint ascending (l : list Q) : Prop :=
  match l with
  | [] => True
  | a :: t =>
      match t with
      | [] => True
      | b :: _ => (a <= b)%Q
      end /\ ascending t
  end.

(** The calls that make a figure. *)
Definition makes_figure (c : call) : bool :=
  match c with
  | PltFigure | AddSubplot _ => true
  | _ => false
  end.

(** The calls that provide the axes when none was passed. *)
Definition calls_of_ensure (ax_given : bool) : list call :=
  if ax_given then [] else [PltFigure; AddSubplot 111].

(** The lines drawn for a list of levels, and for a list of crossings. *)
Definition level_lines (levels : list Q) (kw : kwargs) : list call :=
  map (fun lvl => AxHLine lvl kw) levels.

Definition cross_lines (crossings : list nat) (kw : kwargs) : list call :=
  map (fun v => AxVLine v kw) crossings.

(** The store grew by the figures [new], nothing else changed. *)
Definition grew_by (st st' : pyplot) (new : list figure) : Prop :=
  figures st' = figures st ++ new.

(** The state of the store while one figure is being filled: the earlier
    figures [F], the figure under work, the count of [show] calls. *)
Definition filling (F : list figure) (fsize : nat * nat) (n sh : nat)
  (st : pyplot) : Prop :=
  shown st = sh /\
  exists axs, length axs = n /\ figures st = F ++ [mk_figure fsize axs].

(** The subplots a bar comparison leaves, one per scheme. *)
Definition bar_axes_of (labels : list string) (levels_lst ws : list (list Q))
  : list axes :=
  map (fun '(t, l, w) => mk_axes t [Bar (level_labels l) w])
      (zip3 labels levels_lst ws).

(** The weight routine and [bar] go along with every scheme. *)
Fixpoint bars_accepted {ext : Collaborators}
  (levels_lst : list (list Q)) (pdf_lst : list ndarray) (ws : list (list Q))
  : Prop :=
  match levels_lst, pdf_lst, ws with
  | [], [], [] => True
  | l :: tl, p :: tp, w :: tw =>
      contour_level_weight l p = Ok w /\
      bar_check (level_labels l) w = None /\
      bars_accepted tl tp tw
  | _, _, _ => False
  end.

(** The schemes at every resolution of [ks] give [lss], and each of them
    renders with the weights [wss]. *)
Fixpoint resolutions_ok {ext : Collaborators}
  (g : ndarray) (xa ya : axis) (ks : list Z) (lss wss : list levels3)
  : Prop :=
  match ks, lss, wss with
  | [], [], [] => True
  | ki :: tk, ls :: tl, ws :: tw =>
      scheme_levels g (KInt ki) = Ok ls /\
      renders_ok g xa ya ls ws /\
      resolutions_ok g xa ya tk tl tw
  | _, _, _ => False
  end.

Definition bar_figures (ks : list Z) (lss wss : list levels3) : list figure :=
  map (fun '(ki, ls, ws) => bar_figure (KInt ki) ls ws) (zip3 ks lss wss).

Definition contour_figures (g : ndarray) (xa ya : axis)
  (ks : list Z) (lss : list levels3) : list figure :=
  map (fun '(ki, ls) => contour_figure (KInt ki) g xa ya ls) (combine ks lss).

(** Stand-in schemes that also take a sequence as [k] (one threshold per
    entry, refusing a negative one) and answer an integer below 1 with a
    [TypeError]; the other collaborators are the ones above. *)
Definition vector_scheme (offset : Q) (p : ndarray) (k : kval)
  : outcome (list Q) :=
  match k with
  | KInt z =>
      if (z <? 1)%Z then Raise (TypeError "k must be positive"%string)
      else Ok (sample_thresholds offset z)
  | KSeq ks =>
      if existsb (fun z => (z <? 0)%Z) ks
      then Raise (ValueError "negative entry in k"%string)
      else Ok (map (fun z => (offset + inject_Z z)%Q) ks)
  end.

Definition vector_collaborators : Collaborators := {|
  equi_value := vector_scheme 0;
  equi_prob_per_level := vector_scheme (1 # 2);
  equi_horizontal_prob_per_level := vector_scheme (1 # 4);
  contour_level_weight := fun levels p => Ok (sample_weights levels);
  bar_check := fun labels heights =>
    if length labels =? length heights then None
    else Some (ValueError "shape mismatch"%string);
  contour_check := sample_contour_check
|}.

Definition vector_levels (ks : list Z) : levels3 :=
  (map (fun z => (0 + inject_Z z)%Q) ks,
   map (fun z => ((1 # 2) + inject_Z z)%Q) ks,
   map (fun z => ((1 # 4) + inject_Z z)%Q) ks).

(** A stand-in for [utils.crossing_indexes]: the number of values below
    each level; it refuses an empty list of levels. *)
Definition sample_crossing (levels p : list Q) : outcome (list nat) :=
  match levels with
  | [] => Raise (ValueError "no levels"%string)
  | _ =>
      Ok (map (fun lvl =>
                 length (filter (fun v => negb (Qle_bool lvl v)) p))
              levels)
  end.

#[local] Instance sample_utils : Utils := {
  crossing_indexes := sample_crossing
}.

(** * Properties of the normaliser *)

Section Normaliser.

Lemma prod_shape_pair (a b : nat) : prod_shape [a; b] = a * b.
Proof. unfold prod_shape. simpl. lia. Qed.

Lemma set_shape_pair (pdf : ndarray) (a b : nat) :
  size pdf = a * b ->
  set_shape pdf [a; b] = Ok (mk_ndarray [a; b] (data pdf)).
Proof.
  intros Hsz. unfold set_shape. rewrite prod_shape_pair, Hsz, Nat.eqb_refl.
  reflexivity.
Qed.

Lemma check_postcondition_pair (a b : nat) (d : list Q) (x y : axis) :
  length x = a -> length y = b ->
  check_postcondition (mk_ndarray [a; b] d) x y
  = Ok (mk_ndarray [a; b] d, x, y).
Proof.
  intros <- <-. unfold check_postcondition, shape_at. simpl.
  rewrite !Nat.eqb_refl. reflexivity.
Qed.

Lemma check_postcondition_shape (pdf g : ndarray) (x y xa ya : axis) :
  check_postcondition pdf x y = Ok (g, xa, ya) ->
  g = pdf /\ xa = x /\ ya = y /\
  nth_error (shape pdf) 0 = Some (length x) /\
  nth_error (shape pdf) 1 = Some (length y).
Proof.
  unfold check_postcondition, shape_at.
  destruct (nth_error (shape pdf) 0) as [d0|] eqn:E0;
    cbn [obind negb]; [|discriminate].
  destruct (Nat.eqb_spec d0 (length x)) as [->|];
    cbn [obind negb]; [|discriminate].
  destruct (nth_error (shape pdf) 1) as [d1|] eqn:E1;
    cbn [obind negb]; [|discriminate].
  destruct (Nat.eqb_spec d1 (length y)) as [->|];
    cbn [obind negb]; [|discriminate].
  intros H. inversion H. subst. auto.
Qed.

(** With both axes set the normaliser is a test on the element count. *)
Lemma validate_both_set (pdf : ndarray) (xs ys : axis) :
  _validate_infer_indexes pdf (Some xs) (Some ys) None
  = if size pdf =? length xs * length ys
    then Ok (mk_ndarray [length xs; length ys] (data pdf), xs, ys)
    else Raise (ValueError msg_mismatch).
Proof.
  unfold _validate_infer_indexes. simpl.
  destruct (Nat.eqb_spec (size pdf) (length xs * length ys)) as [E|E]; simpl.
  - rewrite (set_shape_pair _ _ _ E). simpl.
    apply check_postcondition_pair; reflexivity.
  - reflexivity.
Qed.


Lemma length_set_last (l : list Q) (v : Q) : length (set_last l v) = length l.
Proof.
  induction l as [|a [|b t] IH]; simpl in *; auto.
Qed.

Lemma linspace_length (a b : Q) (n : nat) : length (linspace a b n) = n.
Proof.
  unfold linspace.
  destruct (1 <? n), (0 <? n - 1);
    rewrite ?length_set_last, !length_map, length_seq; reflexivity.
Qed.

(** The flat case, with the result spelled out. *)
Lemma validate_flat (n : nat) (d : list Q) :
  _validate_infer_indexes (mk_ndarray [n] d) None None None
  = if Nat.sqrt n ^ 2 =? n
    then Ok (mk_ndarray [Nat.sqrt n; Nat.sqrt n] d,
             linspace 0 1 (Nat.sqrt n), linspace 0 1 (Nat.sqrt n))
    else Raise (ValueError msg_infer).
Proof.
  unfold _validate_infer_indexes, infer_side, int_pow_half, shape_at.
  cbn -[Nat.pow Nat.sqrt linspace set_shape Nat.eqb].
  change (1 =? 2) with false. change (1 =? 1) with true.
  cbn -[Nat.pow Nat.sqrt linspace set_shape Nat.eqb].
  destruct (Nat.eqb_spec (Nat.sqrt n ^ 2) n) as [E|E]; [|reflexivity].
  rewrite set_shape_pair.
  - cbn [obind data].
    apply check_postcondition_pair; apply linspace_length.
  - unfold size. simpl. simpl in E. lia.
Qed.

(** *** [np.linspace(0, 1, s)] *)








End Normaliser.

(** ** Statements about the normaliser *)

(** C1, as the code runs it: for a two-dimensional pdf with [x], [y] and
    [indexes] all unset the normaliser does not return a grid and axes.
    The branch for two dimensions leaves the side length [s] unbound, and
    building the axes from it raises [UnboundLocalError], whatever the
    shape and the data are. *)
Theorem two_dim_unset_axes_raises (rows cols : nat) (d : list Q) :
  _validate_infer_indexes (mk_ndarray [rows; cols] d) None None None
  = Raise (UnboundLocalError "s"%string)
  /\ _validate_infer_indexes pdf2x2 None None None
     = Raise (UnboundLocalError "s"%string).
Proof. split; reflexivity. Qed.







(** C4: whenever exactly one of the two axis arguments is set once
    [indexes] has been applied, normalisation raises the argument-pairing
    error, for every pdf. *)
Theorem one_axis_raises_pairing
  (pdf : ndarray) (x y : option axis) (indexes : indexes_t) :
  exactly_one_set (fst (apply_indexes x y indexes))
                  (snd (apply_indexes x y indexes)) ->
  _validate_infer_indexes pdf x y indexes = Raise (TypeError msg_pairing).
Proof.
  unfold _validate_infer_indexes.
  destruct (apply_indexes x y indexes) as [[xs|] [ys|]]; simpl;
    intros [[H1 H2]|[H1 H2]]; congruence.
Qed.

Lemma one_axis_raises_pairing_witness :
  _validate_infer_indexes pdf4 (Some [0; 1]%Q) None None
  = Raise (TypeError msg_pairing)
  /\ _validate_infer_indexes pdf4 None (Some [0; 1]%Q) None
     = Raise (TypeError msg_pairing)
  /\ _validate_infer_indexes pdf4 None None (Some [Some [0; 1]%Q])
     = Raise (TypeError msg_pairing).
Proof.
  split; [|split]; apply one_axis_raises_pairing; simpl.
  - right. split; congruence.
  - left. split; congruence.
  - right. split; congruence.
Defined.

Lemma set_shape_ok (pdf g : ndarray) (sh : list nat) :
  set_shape pdf sh = Ok g -> g = mk_ndarray sh (data pdf).
Proof.
  unfold set_shape. destruct (prod_shape sh =? size pdf); congruence.
Qed.

Lemma two_dims_from_lookups (sh : list nat) (a b : nat) :
  length sh = 2 -> nth_error sh 0 = Some a -> nth_error sh 1 = Some b ->
  sh = [a; b].
Proof.
  destruct sh as [|a' [|b' [|c t]]]; simpl; intros Hlen H0 H1;
    try discriminate. congruence.
Qed.

(** Whatever branch returned, the grid has exactly the two dimensions of
    the returned axes. *)
Lemma validate_ok_shape (pdf : ndarray) (x y : option axis)
  (indexes : indexes_t) (g : ndarray) (xa ya : axis) :
  _validate_infer_indexes pdf x y indexes = Ok (g, xa, ya) ->
  shape g = [length xa; length ya].
Proof.
  unfold _validate_infer_indexes.
  destruct (apply_indexes x y indexes) as [[xs|] [ys|]]; try discriminate.
  - destruct (negb (size pdf =? length xs * length ys)); [discriminate|].
    destruct (set_shape pdf [length xs; length ys]) as [pdf'|e] eqn:Es;
      cbn [obind]; [|discriminate].
    apply set_shape_ok in Es. intros H.
    apply check_postcondition_shape in H as (-> & -> & -> & _). subst pdf'.
    reflexivity.
  - unfold infer_side.
    destruct (ndim pdf =? 2); [discriminate|].
    destruct (ndim pdf =? 1); [|discriminate].
    destruct (shape_at pdf 0) as [n|e]; cbn [obind]; [|discriminate].
    destruct (int_pow_half n ^ 2 =? n); [|discriminate].
    destruct (set_shape pdf [int_pow_half n; int_pow_half n]) as [pdf'|e] eqn:Es;
      cbn [obind]; [|discriminate].
    apply set_shape_ok in Es. intros H.
    apply check_postcondition_shape in H as (-> & -> & -> & H0 & H1).
    subst pdf'. cbn [shape] in *.
    apply two_dims_from_lookups; auto.
Qed.

(** Normalising a normalised triple again changes nothing: this is the
    second call, made by [contour_comparision_plot_2d]. *)
Lemma validate_again (pdf : ndarray) (x y : option axis)
  (indexes : indexes_t) (g : ndarray) (xa ya : axis) :
  _validate_infer_indexes pdf x y indexes = Ok (g, xa, ya) ->
  _validate_infer_indexes g (Some xa) (Some ya) None = Ok (g, xa, ya).
Proof.
  intros H. apply validate_ok_shape in H.
  rewrite validate_both_set. unfold size. rewrite H, prod_shape_pair.
  rewrite Nat.eqb_refl. destruct g as [sh d]. simpl in H. subst sh.
  reflexivity.
Qed.

(** C5: every triple the normaliser returns has
    [grid.shape == (len(x_axis), len(y_axis))]. *)
Theorem returned_grid_matches_axes
  (pdf : ndarray) (x y : option axis) (indexes : indexes_t)
  (grid : ndarray) (x_axis y_axis : axis) :
  _validate_infer_indexes pdf x y indexes = Ok (grid, x_axis, y_axis) ->
  shape grid = [length x_axis; length y_axis].
Proof. apply validate_ok_shape. Qed.

Lemma returned_grid_matches_axes_witness :
  _validate_infer_indexes pdf6 (Some [0; 1; 2]%Q) (Some [0; 1]%Q) None
  = Ok (mk_ndarray [3; 2] [1; 2; 3; 4; 5; 6]%Q, [0; 1; 2]%Q, [0; 1]%Q)
  /\ shape (mk_ndarray [3; 2] [1; 2; 3; 4; 5; 6]%Q)
     = [length [0; 1; 2]%Q; length [0; 1]%Q].
Proof.
  split; [reflexivity|].
  apply (returned_grid_matches_axes pdf6 (Some [0; 1; 2]%Q) (Some [0; 1]%Q)
           None).
  reflexivity.
Defined.

(** C6: [indexes=[xs, ys]] gives the result, or raises the error, of
    [x=xs, y=ys], whatever was passed for [x] and [y] besides. *)
Theorem indexes_pair_is_x_and_y
  (pdf : ndarray) (x y : option axis) (xs ys : axis) :
  _validate_infer_indexes pdf x y (Some [Some xs; Some ys])
  = _validate_infer_indexes pdf (Some xs) (Some ys) None.
Proof. reflexivity. Qed.

(** * Properties of the drivers *)

Section DriverProperties.

Context {ext : Collaborators}.

Lemma update_nth_app {A} (l : list A) (f : A -> A) (a : A) (t : list A) :
  update_nth (length l) f (l ++ a :: t) = l ++ f a :: t.
Proof.
  induction l as [|b l IH]; simpl; [reflexivity|]. rewrite IH. reflexivity.
Qed.

(** Drawing on the newest figure touches that figure only. *)
Lemma update_axes_newest (l : list figure) (fsize : nat * nat)
  (axs : list axes) (sh j : nat) (f : axes -> axes) :
  update_axes (length l, j) f (mk_pyplot (l ++ [mk_figure fsize axs]) sh)
  = (Ok tt, mk_pyplot (l ++ [mk_figure fsize (update_nth j f axs)]) sh).
Proof.
  unfold update_axes. cbn [fst snd figures shown].
  rewrite update_nth_app. reflexivity.
Qed.

Lemma bar_comparison_three
  (l0 l1 l2 : list Q) (p0 p1 p2 : ndarray) (t0 t1 t2 : string)
  (w0 w1 w2 : list Q) (st : pyplot) :
  contour_level_weight l0 p0 = Ok w0 ->
  contour_level_weight l1 p1 = Ok w1 ->
  contour_level_weight l2 p2 = Ok w2 ->
  bar_check (level_labels l0) w0 = None ->
  bar_check (level_labels l1) w1 = None ->
  bar_check (level_labels l2) w2 = None ->
  plot_contour_levels_stat [l0; l1; l2] [p0; p1; p2] [t0; t1; t2] st
  = (Ok tt,
     mk_pyplot
       (figures st ++
        [mk_figure (12, 2)
           [mk_axes t0 [Bar (level_labels l0) w0];
            mk_axes t1 [Bar (level_labels l1) w1];
            mk_axes t2 [Bar (level_labels l2) w2]]])
       (shown st)).
Proof.
  intros W0 W1 W2 B0 B1 B2.
  unfold plot_contour_levels_stat, axes_bar, set_title, add_artist.
  cbn -[level_labels update_axes].
  unfold bind, lift, plt_subplots.
  cbn -[level_labels update_axes].
  rewrite W0, B0, !update_axes_newest.
  rewrite W1, B1, !update_axes_newest.
  rewrite W2, B2, !update_axes_newest.
  reflexivity.
Qed.

Lemma contour_comparison_three
  (l0 l1 l2 : list Q) (g : ndarray) (xa ya : axis) (t0 t1 t2 : string)
  (st : pyplot) :
  _validate_infer_indexes g (Some xa) (Some ya) None = Ok (g, xa, ya) ->
  contour_check xa ya g (np_unique l0) = None ->
  contour_check xa ya g (np_unique l1) = None ->
  contour_check xa ya g (np_unique l2) = None ->
  contour_comparision_plot_2d [l0; l1; l2] g (Some xa) (Some ya) None
    [t0; t1; t2] st
  = (Ok tt,
     mk_pyplot
       (figures st ++
        [mk_figure (12, 4)
           [mk_axes t0 [Contour xa ya g (np_unique l0)];
            mk_axes t1 [Contour xa ya g (np_unique l1)];
            mk_axes t2 [Contour xa ya g (np_unique l2)]]])
       (S (shown st))).
Proof.
  intros V C0 C1 C2.
  unfold contour_comparision_plot_2d, axes_contour, set_title, add_artist.
  unfold bind at 1. unfold lift at 1. rewrite V.
  cbn -[np_unique update_axes].
  unfold bind, lift, plt_subplots, plt_show.
  cbn -[np_unique update_axes].
  rewrite C0, !update_axes_newest.
  rewrite C1, !update_axes_newest.
  rewrite C2, !update_axes_newest.
  reflexivity.
Qed.

Lemma combined_labels_titles (ki : kval) :
  combined_labels ki
  = [scheme_title 0 ki; scheme_title 1 ki; scheme_title 2 ki].
Proof. reflexivity. Qed.

(** One resolution's bar comparison, as [plot_combined] calls it. *)
Lemma combined_bar_step (g : ndarray) (xa ya : axis) (ki : kval)
  (l0 l1 l2 : list Q) (ws : levels3) (st : pyplot) :
  renders_ok g xa ya (l0, l1, l2) ws ->
  plot_contour_levels_stat [l0; l1; l2] [g; g; g] (combined_labels ki) st
  = (Ok tt,
     mk_pyplot (figures st ++ [bar_figure ki (l0, l1, l2) ws]) (shown st)).
Proof.
  destruct ws as [[w0 w1] w2].
  intros ((W0 & B0 & _) & (W1 & B1 & _) & (W2 & B2 & _)).
  rewrite combined_labels_titles.
  apply bar_comparison_three; assumption.
Qed.

(** One resolution's contour comparison, as [plot_combined] calls it. *)
Lemma combined_contour_step (g : ndarray) (xa ya : axis) (ki : kval)
  (l0 l1 l2 : list Q) (ws : levels3) (st : pyplot) :
  _validate_infer_indexes g (Some xa) (Some ya) None = Ok (g, xa, ya) ->
  renders_ok g xa ya (l0, l1, l2) ws ->
  contour_comparision_plot_2d [l0; l1; l2] g (Some xa) (Some ya) None
    (combined_labels ki) st
  = (Ok tt,
     mk_pyplot (figures st ++ [contour_figure ki g xa ya (l0, l1, l2)])
       (S (shown st))).
Proof.
  destruct ws as [[w0 w1] w2].
  intros V ((_ & _ & C0) & (_ & _ & C1) & (_ & _ & C2)).
  rewrite combined_labels_titles.
  apply contour_comparison_three; assumption.
Qed.

(** C7: iterating a scalar [k] raises [TypeError]; the handler takes [k]
    as the one resolution, and the run leaves one bar-comparison figure
    and one contour-comparison figure of three subplots each.  The handler
    itself is not guarded: what the schemes raise there is raised by the
    driver.  A sequence of two resolutions leaves the two bar figures and
    then the two contour figures, each pair in the order given. *)
Theorem plot_combined_scalar_and_sequence
  (p : ndarray) (x y : option axis) (indexes : indexes_t)
  (g : ndarray) (xa ya : axis) (st : pyplot) :
  _validate_infer_indexes p x y indexes = Ok (g, xa, ya) ->
  (forall (kk : Z) (ls ws : levels3),
     scheme_levels g (KInt kk) = Ok ls ->
     renders_ok g xa ya ls ws ->
     plot_combined p x y indexes (KInt kk) st
     = (Ok tt,
        mk_pyplot
          (figures st ++
           [bar_figure (KInt kk) ls ws; contour_figure (KInt kk) g xa ya ls])
          (S (shown st)))) /\
  (forall (kk : Z) (e : exn),
     scheme_levels g (KInt kk) = Raise e ->
     plot_combined p x y indexes (KInt kk) st = (Raise e, st)) /\
  (forall (ka kb : Z) (lsa wsa lsb wsb : levels3),
     scheme_levels g (KInt ka) = Ok lsa ->
     scheme_levels g (KInt kb) = Ok lsb ->
     renders_ok g xa ya lsa wsa ->
     renders_ok g xa ya lsb wsb ->
     plot_combined p x y indexes (KSeq [ka; kb]) st
     = (Ok tt,
        mk_pyplot
          (figures st ++
           [bar_figure (KInt ka) lsa wsa; bar_figure (KInt kb) lsb wsb;
            contour_figure (KInt ka) g xa ya lsa;
            contour_figure (KInt kb) g xa ya lsb])
          (S (S (shown st))))).
Proof.
  intros V. pose proof (validate_again _ _ _ _ _ _ _ V) as V2.
  split; [|split].
  - intros kk [[l0 l1] l2] ws L R.
    unfold plot_combined. unfold bind at 1. unfold lift at 1. rewrite V.
    unfold bind at 1. unfold lift at 1.
    cbn [try_body try_except_TypeError is_TypeError]. unfold except_body.
    rewrite L. cbn [obind].
    cbn -[plot_contour_levels_stat contour_comparision_plot_2d combined_labels
          bar_figure contour_figure].
    unfold bind, lift, ret.
    rewrite (combined_bar_step g xa ya (KInt kk) l0 l1 l2 ws st R).
    rewrite (combined_contour_step g xa ya (KInt kk) l0 l1 l2 ws _ V2 R).
    cbn [figures shown]. rewrite <- app_assoc. reflexivity.
  - intros kk e L.
    unfold plot_combined. unfold bind at 1. unfold lift at 1. rewrite V.
    unfold bind at 1. unfold lift at 1.
    cbn [try_body try_except_TypeError is_TypeError]. unfold except_body.
    rewrite L. reflexivity.
  - intros ka kb [[a0 a1] a2] wsa [[b0 b1] b2] wsb La Lb Ra Rb.
    unfold plot_combined. unfold bind at 1. unfold lift at 1. rewrite V.
    unfold bind at 1. unfold lift at 1.
    cbn [try_body levels_loop]. rewrite La. cbn [obind]. rewrite Lb.
    cbn -[plot_contour_levels_stat contour_comparision_plot_2d combined_labels
          bar_figure contour_figure].
    unfold bind, lift, ret.
    rewrite (combined_bar_step g xa ya (KInt ka) a0 a1 a2 wsa st Ra).
    rewrite (combined_bar_step g xa ya (KInt kb) b0 b1 b2 wsb _ Rb).
    rewrite (combined_contour_step g xa ya (KInt ka) a0 a1 a2 wsa _ V2 Ra).
    rewrite (combined_contour_step g xa ya (KInt kb) b0 b1 b2 wsb _ V2 Rb).
    cbn [figures shown]. rewrite <- !app_assoc. reflexivity.
Qed.

(** C8: when the three sequences are not all of one length the bar
    comparison raises the length-mismatch error, whichever one differs,
    and the store is untouched: no figure and no subplot was made. *)
Theorem mismatched_lengths_raise
  (levels_lst : list (list Q)) (pdf_lst : list ndarray) (labels : list string)
  (st : pyplot) :
  ~ (length levels_lst = length pdf_lst /\ length levels_lst = length labels) ->
  plot_contour_levels_stat levels_lst pdf_lst labels st
  = (Raise (ValueError msg_lengths), st).
Proof.
  intros H. unfold plot_contour_levels_stat.
  destruct (Nat.eqb_spec (length levels_lst) (length pdf_lst)) as [E1|E1];
    [|reflexivity].
  destruct (Nat.eqb_spec (length levels_lst) (length labels)) as [E2|E2];
    [|reflexivity].
  exfalso. apply H. split; assumption.
Qed.

(** C10: with exactly one scheme the three lengths agree, and yet the bar
    comparison raises: [plt.subplots] hands back the one [Axes] object,
    which [ax[i]] cannot index.  The figure was made, its one subplot has
    no bars and no title.  (Only an error of the weight routine, which
    runs first, comes before the [TypeError].) *)
Theorem single_scheme_bar_comparison_raises
  (levels : list Q) (pdf : ndarray) (label : string) (st : pyplot) :
  plot_contour_levels_stat [levels] [pdf] [label] st
  = (Raise
       match contour_level_weight levels pdf with
       | Ok _ => TypeError "'Axes' object is not subscriptable"%string
       | Raise e => e
       end,
     mk_pyplot (figures st ++ [mk_figure (4, 2) [blank_axes]]) (shown st))
  /\ plt_subplots (4, 2) 1 st
     = (Ok (OneAxes (length (figures st), 0)),
        mk_pyplot (figures st ++ [mk_figure (4, 2) [blank_axes]]) (shown st))
  /\ forall (r : axes_ref) (i : nat),
       ax_getitem (OneAxes r) i
       = Raise (TypeError "'Axes' object is not subscriptable"%string).
Proof.
  split; [|split; reflexivity].
  unfold plot_contour_levels_stat.
  cbn -[level_labels]. unfold bind, lift, plt_subplots. cbn -[level_labels].
  destruct (contour_level_weight levels pdf); reflexivity.
Qed.

End DriverProperties.

Lemma sample_renders (z : Z) :
  (z = 2 \/ z = 3)%Z ->
  renders_ok grid2x2 unit_axis2 unit_axis2
    (sample_levels z) (sample_weights3 (sample_levels z)).
Proof.
  intros [-> | ->]; repeat split.
Qed.

Lemma plot_combined_scalar_and_sequence_witness :
  plot_combined pdf4 None None None (KInt 3) empty_pyplot
  = (Ok tt,
     mk_pyplot
       [bar_figure (KInt 3) (sample_levels 3)
          (sample_weights3 (sample_levels 3));
        contour_figure (KInt 3) grid2x2 unit_axis2 unit_axis2
          (sample_levels 3)]
       1)
  /\ plot_combined pdf4 None None None (KInt 0) empty_pyplot
     = (Raise (ValueError "k must be at least 1"%string), empty_pyplot)
  /\ plot_combined pdf4 None None None (KSeq [2; 3]%Z) empty_pyplot
     = (Ok tt,
        mk_pyplot
          [bar_figure (KInt 2) (sample_levels 2)
             (sample_weights3 (sample_levels 2));
           bar_figure (KInt 3) (sample_levels 3)
             (sample_weights3 (sample_levels 3));
           contour_figure (KInt 2) grid2x2 unit_axis2 unit_axis2
             (sample_levels 2);
           contour_figure (KInt 3) grid2x2 unit_axis2 unit_axis2
             (sample_levels 3)]
          2).
Proof.
  destruct (plot_combined_scalar_and_sequence pdf4 None None None
              grid2x2 unit_axis2 unit_axis2 empty_pyplot eq_refl)
    as (Hscalar & Hraise & Hseq).
  split; [|split].
  - apply (Hscalar 3%Z (sample_levels 3) (sample_weights3 (sample_levels 3))).
    + reflexivity.
    + apply sample_renders. right. reflexivity.
  - apply (Hraise 0%Z). reflexivity.
  - apply (Hseq 2%Z 3%Z (sample_levels 2) (sample_weights3 (sample_levels 2))
                       (sample_levels 3) (sample_weights3 (sample_levels 3))).
    + reflexivity.
    + reflexivity.
    + apply sample_renders. left. reflexivity.
    + apply sample_renders. right. reflexivity.
Defined.

Lemma mismatched_lengths_raise_witness :
  plot_contour_levels_stat [[1 # 2]%Q] [grid2x2; grid2x2]
    ["a"%string; "b"%string] empty_pyplot
  = (Raise (ValueError msg_lengths), empty_pyplot)
  /\ plot_contour_levels_stat [[1 # 2]%Q; [1 # 4]%Q] [grid2x2]
       ["a"%string; "b"%string] empty_pyplot
     = (Raise (ValueError msg_lengths), empty_pyplot)
  /\ plot_contour_levels_stat [[1 # 2]%Q; [1 # 4]%Q] [grid2x2; grid2x2]
       ["a"%string] empty_pyplot
     = (Raise (ValueError msg_lengths), empty_pyplot).
Proof.
  split; [|split]; apply mismatched_lengths_raise; simpl; lia.
Defined.

(** C9, as the code runs it: the labels the combined driver passes are
    the three templates filled with [k], and the third template is
    spelled "horizonal": at [k = 3] the third subplot of both figures is
    titled "horizonal (k=3)", not "horizontal (k=3)". *)
Theorem third_scheme_title_spelling :
  (forall ki : kval,
     combined_labels ki
     = [("old (k=" ++ str_kval ki ++ ")")%string;
        ("vertical (k=" ++ str_kval ki ++ ")")%string;
        ("horizonal (k=" ++ str_kval ki ++ ")")%string]) /\
  map (fun fg => map title (fig_axes fg))
      (figures (snd (plot_combined pdf4 None None None (KInt 3) empty_pyplot)))
  = [["old (k=3)"; "vertical (k=3)"; "horizonal (k=3)"]%string;
     ["old (k=3)"; "vertical (k=3)"; "horizonal (k=3)"]%string] /\
  scheme_title 2 (KInt 3) <> "horizontal (k=3)"%string /\
  nth 2 DEFAULT_LABELS EmptyString = "horizontal"%string.
Proof.
  split; [intros ki; reflexivity|].
  split; [vm_compute; reflexivity|].
  split; [vm_compute; discriminate | reflexivity].
Qed.

(** * Further properties of the normaliser *)

Lemma validate_through_indexes (pdf : ndarray) (x y : option axis)
  (indexes : indexes_t) :
  _validate_infer_indexes pdf x y indexes
  = _validate_infer_indexes pdf (fst (apply_indexes x y indexes))
      (snd (apply_indexes x y indexes)) None.
Proof.
  unfold _validate_infer_indexes at 1 2.
  destruct (apply_indexes x y indexes) as [x' y']. reflexivity.
Qed.

(** Without axes the outcome is read off the shape. *)
Lemma validate_unset (pdf : ndarray) :
  _validate_infer_indexes pdf None None None
  = match shape pdf with
    | [n] =>
        if Nat.sqrt n ^ 2 =? n
        then Ok (mk_ndarray [Nat.sqrt n; Nat.sqrt n] (data pdf),
                 linspace 0 1 (Nat.sqrt n), linspace 0 1 (Nat.sqrt n))
        else Raise (ValueError msg_infer)
    | _ => Raise (UnboundLocalError "s"%string)
    end.
Proof.
  destruct pdf as [sh d]. destruct sh as [|n [|m [|k t]]].
  - reflexivity.
  - apply validate_flat.
  - reflexivity.
  - reflexivity.
Qed.

(** X1: without axes a pdf that is not one-dimensional (a scalar, a
    matrix, a cube, ...) always ends in the [UnboundLocalError] on [s];
    only a flat pdf can be normalised without axes. *)
Theorem unset_axes_need_flat_pdf
  (pdf : ndarray) (x y : option axis) (indexes : indexes_t) :
  apply_indexes x y indexes = (None, None) ->
  ndim pdf <> 1 ->
  _validate_infer_indexes pdf x y indexes
  = Raise (UnboundLocalError "s"%string).
Proof.
  intros Hix Hdim. rewrite validate_through_indexes, Hix. cbn [fst snd].
  rewrite validate_unset. unfold ndim in Hdim.
  destruct (shape pdf) as [|n [|m t]]; try reflexivity.
  simpl in Hdim. congruence.
Qed.

Lemma unset_axes_need_flat_pdf_witness :
  _validate_infer_indexes (mk_ndarray [] [7%Q]) None None (Some [])
  = Raise (UnboundLocalError "s"%string)
  /\ _validate_infer_indexes (mk_ndarray [1; 2; 2] [1; 2; 3; 4]%Q)
       (Some [0; 1]%Q) None (Some [None])
     = Raise (UnboundLocalError "s"%string).
Proof.
  split; apply unset_axes_need_flat_pdf; try reflexivity; vm_compute; lia.
Defined.



(** X3: a successful normalisation only reshapes: the returned grid has
    the buffer of the pdf, and as many elements. *)
Theorem normalisation_keeps_buffer
  (pdf : ndarray) (x y : option axis) (indexes : indexes_t)
  (g : ndarray) (xa ya : axis) :
  _validate_infer_indexes pdf x y indexes = Ok (g, xa, ya) ->
  data g = data pdf /\ size g = size pdf.
Proof.
  rewrite validate_through_indexes.
  destruct (apply_indexes x y indexes) as [[xs|] [ys|]]; cbn [fst snd];
    try discriminate.
  - rewrite validate_both_set.
    destruct (Nat.eqb_spec (size pdf) (length xs * length ys)) as [E|E];
      [|discriminate].
    intros [= <- <- <-]. split; [reflexivity|].
    unfold size at 1. cbn [shape]. rewrite prod_shape_pair. auto.
  - rewrite validate_unset.
    destruct pdf as [sh d]. cbn [shape data].
    destruct sh as [|n [|m t]]; try discriminate.
    destruct (Nat.eqb_spec (Nat.sqrt n ^ 2) n) as [E|E]; [|discriminate].
    intros [= <- _ _]. split; [reflexivity|].
    unfold size. cbn [shape]. rewrite prod_shape_pair.
    unfold prod_shape. simpl. simpl in E. lia.
Qed.

Lemma normalisation_keeps_buffer_witness :
  data (mk_ndarray [2; 2] [1; 2; 3; 4]%Q) = data pdf4
  /\ size (mk_ndarray [2; 2] [1; 2; 3; 4]%Q) = size pdf4.
Proof.
  apply (normalisation_keeps_buffer pdf4 None None None _ [0; 1]%Q [0; 1]%Q).
  reflexivity.
Defined.

(** X4: normalising is idempotent: handing a returned grid back together
    with its returned axes gives the same triple again (this is what the
    second normalisation inside [plot_combined] relies on). *)
Theorem normalisation_idempotent
  (pdf : ndarray) (x y : option axis) (indexes : indexes_t)
  (g : ndarray) (xa ya : axis) :
  _validate_infer_indexes pdf x y indexes = Ok (g, xa, ya) ->
  _validate_infer_indexes g (Some xa) (Some ya) None = Ok (g, xa, ya)
  /\ _validate_infer_indexes g None None (Some [Some xa; Some ya])
     = Ok (g, xa, ya).
Proof.
  intros H. split; exact (validate_again _ _ _ _ _ _ _ H).
Qed.

Lemma normalisation_idempotent_witness :
  _validate_infer_indexes grid2x2 (Some unit_axis2) (Some unit_axis2) None
  = Ok (grid2x2, unit_axis2, unit_axis2)
  /\ _validate_infer_indexes grid2x2 None None
       (Some [Some unit_axis2; Some unit_axis2])
     = Ok (grid2x2, unit_axis2, unit_axis2).
Proof.
  apply (normalisation_idempotent pdf4 None None None). reflexivity.
Defined.

(** X5: [indexes] of other lengths.  An empty [indexes] is no [indexes];
    a single entry replaces [x] alone and leaves [y] as passed; entries
    after the second are never read; and an entry that is [None] unsets
    the argument it replaces. *)
Theorem indexes_of_other_lengths
  (pdf : ndarray) (x y : option axis) (e0 e1 : option axis)
  (more : list (option axis)) :
  _validate_infer_indexes pdf x y (Some [])
  = _validate_infer_indexes pdf x y None
  /\ _validate_infer_indexes pdf x y (Some [e0])
     = _validate_infer_indexes pdf e0 y None
  /\ _validate_infer_indexes pdf x y (Some (e0 :: e1 :: more))
     = _validate_infer_indexes pdf e0 e1 None.
Proof.
  split; [|split]; rewrite validate_through_indexes; reflexivity.
Qed.

(** * Further properties of the drivers *)

Section MoreDriverProperties.

Context {ext : Collaborators}.

Lemma bind_run {A B} (c : M A) (k : A -> M B) (st : pyplot) :
  bind c k st
  = match c st with
    | (Ok a, st') => k a st'
    | (Raise e, st') => (Raise e, st')
    end.
Proof. reflexivity. Qed.

Lemma axes_array_lookup (fid n i : nat) :
  i < n ->
  ax_getitem (AxesArray (map (pair fid) (seq 0 n))) i = Ok (fid, i).
Proof.
  intros Hi. unfold ax_getitem.
  rewrite nth_error_map, nth_error_seq.
  destruct (Nat.ltb_spec i n) as [_|]; [reflexivity | lia].
Qed.

Lemma axes_array_lookup_fst (fid n i : nat) (r : axes_ref) :
  ax_getitem (AxesArray (map (pair fid) (seq 0 n))) i = Ok r -> fst r = fid.
Proof.
  unfold ax_getitem.
  destruct (nth_error _ i) as [r'|] eqn:E; [|discriminate].
  intros [= <-]. apply nth_error_In, in_map_iff in E as (j & <- & _).
  reflexivity.
Qed.

Lemma update_nth_length {A} (n : nat) (f : A -> A) (l : list A) :
  length (update_nth n f l) = length l.
Proof.
  revert n. induction l as [|a t IH]; intros [|n]; simpl; auto.
Qed.

Lemma update_axes_filling (F : list figure) (fsize : nat * nat) (n sh j : nat)
  (f : axes -> axes) (st : pyplot) :
  filling F fsize n sh st ->
  update_axes (length F, j) f st
  = (Ok tt, snd (update_axes (length F, j) f st))
  /\ filling F fsize n sh (snd (update_axes (length F, j) f st)).
Proof.
  intros (Hsh & axs & Hlen & Hfig). destruct st as [figs sh'].
  cbn [shown figures] in Hsh, Hfig. subst figs sh' n.
  rewrite update_axes_newest. cbn [snd]. split; [reflexivity|].
  split; [reflexivity|]. eexists. split; [|reflexivity].
  apply update_nth_length.
Qed.

Lemma for_each_keeps {A} (P : pyplot -> Prop) (l : list A)
  (body : A -> M unit) :
  (forall a st, In a l -> P st -> P (snd (body a st))) ->
  forall st, P st -> P (snd (for_each l body st)).
Proof.
  induction l as [|a t IH]; intros Hbody st Hst; [exact Hst|].
  cbn [for_each]. unfold bind.
  pose proof (Hbody a st (or_introl eq_refl) Hst) as Ha.
  destruct (body a st) as [[[]|e] st1]; cbn [snd] in *; [|exact Ha].
  apply IH; [|exact Ha]. intros b st' Hb. apply Hbody. right. exact Hb.
Qed.

Lemma in_enumerate_index {A} (l : list A) (i : nat) (a : A) :
  In (i, a) (enumerate l) -> i < length l.
Proof.
  unfold enumerate. intros H. apply in_combine_l in H.
  apply in_seq in H. lia.
Qed.

Lemma bar_comparison_extends
  (levels_lst : list (list Q)) (pdf_lst : list ndarray) (labels : list string)
  (st : pyplot) :
  let st' := snd (plot_contour_levels_stat levels_lst pdf_lst labels st) in
  let n := length levels_lst in
  shown st' = shown st /\
  (figures st' = figures st \/
   exists axs,
     figures st' = figures st ++ [mk_figure (4 * n, 2) axs] /\
     (n = 0 \/ length axs = n)).
Proof.
  cbv zeta. set (n := length levels_lst).
  set (run := plot_contour_levels_stat levels_lst pdf_lst labels st).
  assert (Hrun : snd run = st \/
                 (n = 0 /\
                  snd run = mk_pyplot
                              (figures st ++ [mk_figure (4 * n, 2) []])
                              (shown st)) \/
                 filling (figures st) (4 * n, 2) n (shown st) (snd run)).
  { subst run. unfold plot_contour_levels_stat. fold n.
    destruct (negb (n =? length pdf_lst) || negb (n =? length labels));
      [left; reflexivity|].
    right. rewrite bind_run. unfold plt_subplots.
    destruct (Nat.eqb_spec n 0) as [E0|E0]; [left; split; [exact E0|reflexivity]|].
    right.
    set (st1 := mk_pyplot
                  (figures st ++ [mk_figure (4 * n, 2) (repeat blank_axes n)])
                  (shown st)).
    assert (H1 : filling (figures st) (4 * n, 2) n (shown st) st1).
    { split; [reflexivity|]. eexists. split; [|reflexivity].
      apply repeat_length. }
    destruct (n =? 1); cbv beta iota.
    - (* one scheme: the first subscript of the Axes object raises *)
      apply for_each_keeps; [|exact H1].
      intros [i [levels pdf]] st2 _ H2. unfold bind, lift. cbn [ax_getitem].
      destruct (contour_level_weight levels pdf); exact H2.
    - apply for_each_keeps; [|exact H1].
      intros [i [levels pdf]] st2 _ H2. unfold bind, lift.
      destruct (contour_level_weight levels pdf) as [w|e]; [|exact H2].
      destruct (ax_getitem _ i) as [r|e] eqn:Er; [|exact H2].
      pose proof (axes_array_lookup_fst _ _ _ _ Er) as Hr.
      destruct r as [fid j]. cbn [fst] in Hr. subst fid.
      unfold axes_bar. destruct (bar_check (level_labels levels) w) as [e|].
      { exact H2. }
      unfold add_artist.
      destruct (update_axes_filling _ _ _ _ j
                  (fun a => mk_axes (title a)
                              (artists a ++ [Bar (level_labels levels) w]))
                  _ H2) as [E3 H3].
      rewrite E3.
      destruct (list_getitem labels i) as [label|e]; [|exact H3].
      unfold set_title.
      destruct (update_axes_filling _ _ _ _ j
                  (fun a => mk_axes label (artists a)) _ H3) as [E4 H4].
      rewrite E4. exact H4. }
  destruct Hrun as [-> | [(E0 & ->) | (Hsh & axs & Hlen & Hfig)]].
  - split; [reflexivity | left; reflexivity].
  - split; [reflexivity|]. right. eexists. split; [reflexivity | left; exact E0].
  - split; [exact Hsh|]. right. exists axs. auto.
Qed.

(** X6: whatever its arguments and whatever the collaborators answer,
    the bar comparison never calls [show], never alters a figure that
    existed before, and adds at most one figure, of size [(4 n, 2)] with
    [n] subplots. *)
Theorem bar_comparison_frame
  (levels_lst : list (list Q)) (pdf_lst : list ndarray) (labels : list string)
  (st : pyplot) :
  let st' := snd (plot_contour_levels_stat levels_lst pdf_lst labels st) in
  let n := length levels_lst in
  shown st' = shown st /\
  (figures st' = figures st \/
   exists axs,
     figures st' = figures st ++ [mk_figure (4 * n, 2) axs] /\
     (n = 0 \/ length axs = n)).
Proof. apply bar_comparison_extends. Qed.

Lemma bars_accepted_lengths (lv : list (list Q)) (pd : list ndarray)
  (ws : list (list Q)) :
  bars_accepted lv pd ws -> length pd = length lv /\ length ws = length lv.
Proof.
  revert pd ws. induction lv as [|l tl IH]; intros [|p tp] [|w tw] H;
    simpl in H; try contradiction; [split; reflexivity|].
  destruct H as (_ & _ & H). destruct (IH _ _ H). simpl. lia.
Qed.

Lemma list_getitem_middle {A} (pre : list A) (a : A) (post : list A) :
  list_getitem (pre ++ a :: post) (length pre) = Ok a.
Proof.
  unfold list_getitem. rewrite nth_error_app2, Nat.sub_diag by lia.
  reflexivity.
Qed.

Lemma list_getitem_at {A} (pre : list A) (a : A) (post : list A) (i : nat) :
  length pre = i -> list_getitem (pre ++ a :: post) i = Ok a.
Proof. intros <-. apply list_getitem_middle. Qed.

(** The loop of lines 162-168 from its [i]-th pass on: the subplots
    [done] are drawn, the others still blank. *)
Lemma bar_loop_fills (F : list figure) (fsize : nat * nat) (sh n : nat)
  (labels : list string) :
  forall (lv : list (list Q)) (pd : list ndarray) (ws : list (list Q))
         (lb pre : list string) (done : list axes),
    bars_accepted lv pd ws ->
    length lb = length lv ->
    length done = length pre ->
    labels = pre ++ lb ->
    length pre + length lv <= n ->
    for_each (combine (seq (length pre) (length lv)) (combine lv pd))
      (fun '(i, (levels, pdf)) =>
         (sum_prob <- lift (contour_level_weight levels pdf) ;;
          a <- lift (ax_getitem
                       (AxesArray (map (pair (length F)) (seq 0 n))) i) ;;
          axes_bar a (level_labels levels) sum_prob ;;
          a0 <- lift (ax_getitem
                        (AxesArray (map (pair (length F)) (seq 0 n))) i) ;;
          label <- lift (list_getitem labels i) ;;
          set_title a0 label)%M)
      (mk_pyplot
         (F ++ [mk_figure fsize (done ++ repeat blank_axes (length lv))]) sh)
    = (Ok tt,
       mk_pyplot (F ++ [mk_figure fsize (done ++ bar_axes_of lb lv ws)]) sh).
Proof.
  match goal with |- context [for_each _ ?b] => set (body := b) end.
  induction lv as [|l tl IH]; intros [|p tp] [|w tw] lb pre done Hacc Hlb Hdone
    Hlabels Hn; simpl in Hacc; try contradiction.
  - destruct lb; [|discriminate]. reflexivity.
  - destruct Hacc as (W & B & Hacc).
    destruct lb as [|t tlb]; [discriminate|].
    cbn [length seq combine for_each].
    rewrite bind_run. unfold body at 1. cbv beta iota.
    unfold bind, lift, axes_bar, add_artist, set_title.
    rewrite W.
    rewrite axes_array_lookup by (simpl in Hn; lia).
    rewrite B, update_axes_newest.
    subst labels. rewrite list_getitem_middle, update_axes_newest.
    cbn [repeat]. rewrite <- Hdone, !update_nth_app.
    cbn [title artists blank_axes app].
    specialize (IH tp tw tlb (pre ++ [t])
                  (done ++ [mk_axes t [Bar (level_labels l) w]])).
    rewrite <- !app_assoc in IH. cbn [app] in IH.
    rewrite !length_app in IH. cbn [length] in IH.
    rewrite !Nat.add_1_r in IH. rewrite Hdone.
    apply IH; try assumption.
    + simpl in Hlb. lia.
    + lia.
    + reflexivity.
    + simpl in Hn. lia.
Qed.

(** X7: from two schemes on, when the three sequences have one length
    and the collaborators go along, the bar comparison leaves exactly one
    new figure of size [(4 n, 2)]; its [i]-th subplot is titled
    [labels[i]] and holds the one bar chart of that scheme, with the bars
    named [L1 ... L(len(levels) + 1)].  Nothing is shown. *)
Theorem bar_comparison_general
  (levels_lst : list (list Q)) (pdf_lst : list ndarray) (labels : list string)
  (ws : list (list Q)) (st : pyplot) :
  2 <= length levels_lst ->
  length labels = length levels_lst ->
  bars_accepted levels_lst pdf_lst ws ->
  plot_contour_levels_stat levels_lst pdf_lst labels st
  = (Ok tt,
     mk_pyplot
       (figures st ++
        [mk_figure (4 * length levels_lst, 2)
           (bar_axes_of labels levels_lst ws)])
       (shown st)).
Proof.
  intros Hn Hlab Hacc.
  destruct (bars_accepted_lengths _ _ _ Hacc) as [Hpd Hws].
  unfold plot_contour_levels_stat.
  rewrite Hpd, Hlab, !Nat.eqb_refl. cbn [negb orb].
  rewrite bind_run. unfold plt_subplots.
  destruct (Nat.eqb_spec (length levels_lst) 0) as [E|_]; [lia|].
  destruct (Nat.eqb_spec (length levels_lst) 1) as [E|_]; [lia|].
  unfold enumerate. rewrite length_combine, Hpd, Nat.min_id.
  apply (bar_loop_fills (figures st) _ (shown st) (length levels_lst) labels
           levels_lst pdf_lst ws labels [] []); auto.
Qed.

Lemma in_zip3_l {A B C} (la : list A) (lb : list B) (lc : list C)
  (a : A) (b : B) (c : C) :
  In (a, b, c) (zip3 la lb lc) -> In a la.
Proof.
  revert lb lc. induction la as [|a' ta IH]; intros [|b' tb] [|c' tc] H;
    simpl in H; try contradiction.
  destruct H as [[= -> _ _]|H]; [left; reflexivity|].
  right. eapply IH. exact H.
Qed.

Lemma in_enumerate_value {A} (l : list A) (i : nat) (a : A) :
  In (i, a) (enumerate l) -> In a l.
Proof. unfold enumerate. apply in_combine_r. Qed.

(** What the contour comparison does to the store, on every input: it
    shows exactly when it returns, and it adds at most one figure. *)
Lemma contour_comparison_extends
  (levels_lst : list (list Q)) (pdf : ndarray) (x y : option axis)
  (indexes : indexes_t) (labels : list string) (st : pyplot) :
  let run := contour_comparision_plot_2d levels_lst pdf x y indexes labels st in
  let n := length levels_lst in
  ((fst run = Ok tt /\ shown (snd run) = S (shown st)) \/
   ((exists e, fst run = Raise e) /\ shown (snd run) = shown st)) /\
  (figures (snd run) = figures st \/
   exists axs, figures (snd run) = figures st ++ [mk_figure (4 * n, 4) axs]).
Proof.
  cbv zeta. set (n := length levels_lst).
  unfold contour_comparision_plot_2d. fold n.
  rewrite bind_run. unfold lift.
  destruct (_validate_infer_indexes pdf x y indexes) as [[[g xa] ya]|e].
  2:{ cbn [fst snd]. split; [right; split; eauto | left; reflexivity]. }
  rewrite bind_run. unfold plt_subplots.
  destruct (Nat.eqb_spec n 0) as [E0|E0].
  { cbn [fst snd shown figures].
    split; [right; split; eauto | right; eauto]. }
  set (st1 := mk_pyplot
                (figures st ++ [mk_figure (4 * n, 4) (repeat blank_axes n)])
                (shown st)).
  assert (H1 : filling (figures st) (4 * n, 4) n (shown st) st1).
  { split; [reflexivity|]. eexists. split; [|reflexivity].
    apply repeat_length. }
  destruct (n =? 1); cbv beta iota; rewrite bind_run; cbn [ax_iter].
  { destruct H1 as (Hsh & axs & _ & Hfig). cbn [fst snd].
    split; [right; split; eauto | right; eauto]. }
  rewrite bind_run.
  match goal with |- context [for_each ?l ?b st1] =>
    assert (Hfin : filling (figures st) (4 * n, 4) n (shown st)
                     (snd (for_each l b st1)));
    [|destruct (for_each l b st1) as [[[]|e] st2]]
  end.
  - apply for_each_keeps; [|exact H1].
    intros [i [[r label] levels]] st3 Hin H3.
    apply in_enumerate_value, in_zip3_l, in_map_iff in Hin as (j & <- & _).
    rewrite bind_run. unfold axes_contour.
    destruct (contour_check xa ya g (np_unique levels)) as [e|].
    { exact H3. }
    unfold add_artist.
    destruct (update_axes_filling _ _ _ _ j
                (fun a => mk_axes (title a)
                   (artists a ++ [Contour xa ya g (np_unique levels)]))
                _ H3) as [E4 H4].
    rewrite E4. unfold set_title.
    destruct (update_axes_filling _ _ _ _ j
                (fun a => mk_axes label (artists a)) _ H4) as [E5 H5].
    rewrite E5. exact H5.
  - destruct Hfin as (Hsh & axs & _ & Hfig). cbn [snd] in Hsh, Hfig.
    unfold plt_show. cbn [fst snd shown figures].
    split; [left; split; [reflexivity | congruence] | right; eauto].
  - destruct Hfin as (Hsh & axs & _ & Hfig). cbn [snd] in Hsh, Hfig.
    cbn [fst snd].
    split; [right; split; eauto | right; eauto].
Qed.

(** X8: on every input the contour comparison calls [show] exactly when
    it returns normally (never after an exception), never alters a figure
    that existed before, and adds at most one figure, of size [(4 n, 4)]. *)
Theorem contour_comparison_frame
  (levels_lst : list (list Q)) (pdf : ndarray) (x y : option axis)
  (indexes : indexes_t) (labels : list string) (st : pyplot) :
  let run := contour_comparision_plot_2d levels_lst pdf x y indexes labels st in
  let n := length levels_lst in
  ((fst run = Ok tt /\ shown (snd run) = S (shown st)) \/
   ((exists e, fst run = Raise e) /\ shown (snd run) = shown st)) /\
  (figures (snd run) = figures st \/
   exists axs, figures (snd run) = figures st ++ [mk_figure (4 * n, 4) axs]).
Proof. apply contour_comparison_extends. Qed.

(** X9: with exactly one scheme the contour comparison raises too: after
    a successful normalisation the figure is made, [zip] cannot iterate the
    one [Axes] object, and the figure is left with one blank subplot,
    never shown. *)
Theorem single_scheme_contour_comparison_raises
  (levels : list Q) (pdf : ndarray) (x y : option axis) (indexes : indexes_t)
  (labels : list string) (g : ndarray) (xa ya : axis) (st : pyplot) :
  _validate_infer_indexes pdf x y indexes = Ok (g, xa, ya) ->
  contour_comparision_plot_2d [levels] pdf x y indexes labels st
  = (Raise (TypeError "'Axes' object is not iterable"%string),
     mk_pyplot (figures st ++ [mk_figure (4, 4) [blank_axes]]) (shown st)).
Proof.
  intros V. unfold contour_comparision_plot_2d.
  rewrite bind_run. unfold lift at 1. rewrite V. reflexivity.
Qed.

(** X10: the contour comparison does not compare lengths.  With three
    level sets and two labels it still makes the three subplots, draws
    and titles the first two and leaves the third blank, and shows the
    figure; the bar comparison raises on such arguments. *)
Theorem contour_comparison_short_labels
  (l0 l1 l2 : list Q) (pdf : ndarray) (x y : option axis)
  (indexes : indexes_t) (t0 t1 : string) (g : ndarray) (xa ya : axis)
  (pdfs : list ndarray) (st : pyplot) :
  _validate_infer_indexes pdf x y indexes = Ok (g, xa, ya) ->
  contour_check xa ya g (np_unique l0) = None ->
  contour_check xa ya g (np_unique l1) = None ->
  contour_comparision_plot_2d [l0; l1; l2] pdf x y indexes [t0; t1] st
  = (Ok tt,
     mk_pyplot
       (figures st ++
        [mk_figure (12, 4)
           [mk_axes t0 [Contour xa ya g (np_unique l0)];
            mk_axes t1 [Contour xa ya g (np_unique l1)];
            blank_axes]])
       (S (shown st)))
  /\ plot_contour_levels_stat [l0; l1; l2] pdfs [t0; t1] st
     = (Raise (ValueError msg_lengths), st).
Proof.
  intros V C0 C1. split.
  - unfold contour_comparision_plot_2d, axes_contour, set_title, add_artist.
    rewrite bind_run. unfold lift at 1. rewrite V.
    cbn -[np_unique update_axes].
    unfold bind, lift, plt_subplots, plt_show.
    cbn -[np_unique update_axes].
    rewrite C0, !update_axes_newest.
    rewrite C1, !update_axes_newest.
    reflexivity.
  - unfold plot_contour_levels_stat. cbn [length].
    destruct (3 =? length pdfs); reflexivity.
Qed.

(** X11: a failed normalisation stops both callers before anything is
    drawn: the contour comparison and the combined driver raise the
    normaliser's error and leave the store as it was. *)
Theorem normalisation_failure_draws_nothing
  (levels_lst : list (list Q)) (pdf : ndarray) (x y : option axis)
  (indexes : indexes_t) (labels : list string) (k : kval) (e : exn)
  (st : pyplot) :
  _validate_infer_indexes pdf x y indexes = Raise e ->
  contour_comparision_plot_2d levels_lst pdf x y indexes labels st
  = (Raise e, st)
  /\ plot_combined pdf x y indexes k st = (Raise e, st).
Proof.
  intros V. split.
  - unfold contour_comparision_plot_2d. rewrite bind_run. unfold lift at 1.
    rewrite V. reflexivity.
  - unfold plot_combined. rewrite bind_run. unfold lift at 1.
    rewrite V. reflexivity.
Qed.

(** *** The combined driver on sequences of any length *)

Lemma levels_loop_ok (g : ndarray) (xa ya : axis) :
  forall (ks : list Z) (lss wss : list levels3) (a b c : list (list Q)),
    resolutions_ok g xa ya ks lss wss ->
    levels_loop g ks (a, b, c)
    = Ok (a ++ map (fun ls => fst (fst ls)) lss,
          b ++ map (fun ls => snd (fst ls)) lss,
          c ++ map (fun ls => snd ls) lss).
Proof.
  induction ks as [|ki tk IH]; intros [|ls tl] [|ws tw] a b c H;
    simpl in H; try contradiction.
  - simpl. rewrite !app_nil_r. reflexivity.
  - destruct H as (L & _ & H). cbn [levels_loop]. rewrite L. cbn [obind].
    destruct ls as [[l0 l1] l2]. rewrite (IH _ _ _ _ _ H).
    cbn [map fst snd]. rewrite <- !app_assoc. reflexivity.
Qed.

Lemma levels_loop_raises (g : ndarray) (e : exn) (ki : Z) (post : list Z) :
  forall (pre : list Z) (acc : level_lists),
    Forall (fun kj => exists ls, scheme_levels g (KInt kj) = Ok ls) pre ->
    scheme_levels g (KInt ki) = Raise e ->
    levels_loop g (pre ++ ki :: post) acc = Raise e.
Proof.
  induction pre as [|kj pre IH]; intros [[a b] c] Hpre He.
  - cbn [app levels_loop]. rewrite He. reflexivity.
  - inversion Hpre as [|? ? [[[l0 l1] l2] Hj] Hrest]; subst.
    cbn [app levels_loop]. rewrite Hj. cbn [obind]. apply IH; assumption.
Qed.

(** The first loop of [plot_combined] (lines 221-225) from some pass on. *)
Lemma combined_bar_loop (g : ndarray) (xa ya : axis)
  (A B C : list (list Q)) :
  forall (ks : list Z) (lss wss : list levels3) (pa pb pc : list (list Q))
         (st : pyplot),
    resolutions_ok g xa ya ks lss wss ->
    A = pa ++ map (fun ls => fst (fst ls)) lss ->
    B = pb ++ map (fun ls => snd (fst ls)) lss ->
    C = pc ++ map (fun ls => snd ls) lss ->
    length pb = length pa -> length pc = length pa ->
    for_each (combine (seq (length pa) (length ks)) (map KInt ks))
      (fun '(i, ki) =>
         (l0 <- lift (list_getitem A i) ;;
          l1 <- lift (list_getitem B i) ;;
          l2 <- lift (list_getitem C i) ;;
          let levels := [l0; l1; l2] in
          plot_contour_levels_stat levels (repeat g (length levels))
            (combined_labels ki))%M)
      st
    = (Ok tt, mk_pyplot (figures st ++ bar_figures ks lss wss) (shown st)).
Proof.
  match goal with |- context [for_each _ ?b] => set (body := b) end.
  induction ks as [|ki tk IH]; intros [|ls tl] [|ws tw] pa pb pc st H HA HB HC
    Hb Hc; simpl in H; try contradiction.
  - cbn. rewrite app_nil_r. destruct st. reflexivity.
  - destruct H as (_ & R & H). destruct ls as [[l0 l1] l2].
    cbn [length seq map combine for_each].
    rewrite bind_run. unfold body at 1. cbv beta iota.
    cbn [map fst snd] in HA, HB, HC.
    unfold bind at 1, lift at 1. rewrite HA at 1.
    rewrite list_getitem_at by reflexivity.
    unfold bind at 1, lift at 1. rewrite HB at 1.
    rewrite list_getitem_at by exact Hb.
    unfold bind at 1, lift at 1. rewrite HC at 1.
    rewrite list_getitem_at by exact Hc.
    cbv zeta. cbn [length repeat].
    rewrite (combined_bar_step g xa ya (KInt ki) l0 l1 l2 ws st R).
    specialize (IH tl tw (pa ++ [l0]) (pb ++ [l1]) (pc ++ [l2])).
    rewrite !length_app in IH. cbn [length] in IH.
    rewrite !Nat.add_1_r in IH.
    rewrite IH; try assumption.
    + cbn [figures shown bar_figures zip3 map]. rewrite <- app_assoc.
      reflexivity.
    + rewrite <- app_assoc. exact HA.
    + rewrite <- app_assoc. exact HB.
    + rewrite <- app_assoc. exact HC.
    + lia.
    + lia.
Qed.

(** The second loop (lines 226-230). *)
Lemma combined_contour_loop (g : ndarray) (xa ya : axis)
  (A B C : list (list Q)) :
  _validate_infer_indexes g (Some xa) (Some ya) None = Ok (g, xa, ya) ->
  forall (ks : list Z) (lss wss : list levels3) (pa pb pc : list (list Q))
         (st : pyplot),
    resolutions_ok g xa ya ks lss wss ->
    A = pa ++ map (fun ls => fst (fst ls)) lss ->
    B = pb ++ map (fun ls => snd (fst ls)) lss ->
    C = pc ++ map (fun ls => snd ls) lss ->
    length pb = length pa -> length pc = length pa ->
    for_each (combine (seq (length pa) (length ks)) (map KInt ks))
      (fun '(i, ki) =>
         (l0 <- lift (list_getitem A i) ;;
          l1 <- lift (list_getitem B i) ;;
          l2 <- lift (list_getitem C i) ;;
          contour_comparision_plot_2d [l0; l1; l2] g (Some xa) (Some ya) None
            (combined_labels ki))%M)
      st
    = (Ok tt,
       mk_pyplot (figures st ++ contour_figures g xa ya ks lss)
         (length ks + shown st)).
Proof.
  intros V2.
  match goal with |- context [for_each _ ?b] => set (body := b) end.
  induction ks as [|ki tk IH]; intros [|ls tl] [|ws tw] pa pb pc st H HA HB HC
    Hb Hc; simpl in H; try contradiction.
  - cbn. rewrite app_nil_r. destruct st. reflexivity.
  - destruct H as (_ & R & H). destruct ls as [[l0 l1] l2].
    cbn [length seq map combine for_each].
    rewrite bind_run. unfold body at 1. cbv beta iota.
    cbn [map fst snd] in HA, HB, HC.
    unfold bind at 1, lift at 1. rewrite HA at 1.
    rewrite list_getitem_at by reflexivity.
    unfold bind at 1, lift at 1. rewrite HB at 1.
    rewrite list_getitem_at by exact Hb.
    unfold bind at 1, lift at 1. rewrite HC at 1.
    rewrite list_getitem_at by exact Hc.
    rewrite (combined_contour_step g xa ya (KInt ki) l0 l1 l2 ws st V2 R).
    specialize (IH tl tw (pa ++ [l0]) (pb ++ [l1]) (pc ++ [l2])).
    rewrite !length_app in IH. cbn [length] in IH.
    rewrite !Nat.add_1_r in IH.
    rewrite IH; try assumption.
    + cbn [figures shown contour_figures combine map].
      rewrite <- app_assoc, Nat.add_succ_r. reflexivity.
    + rewrite <- app_assoc. exact HA.
    + rewrite <- app_assoc. exact HB.
    + rewrite <- app_assoc. exact HC.
    + lia.
    + lia.
Qed.

(** X12: for a sequence of resolutions of any length, when the schemes
    and the rendering go along at each of them, the combined driver leaves
    first the bar figures of all resolutions and then their contour
    figures, each group in the order of the sequence, and shows once per
    resolution; on the empty sequence it draws and shows nothing. *)
Theorem plot_combined_sequence
  (p : ndarray) (x y : option axis) (indexes : indexes_t)
  (g : ndarray) (xa ya : axis) (ks : list Z) (lss wss : list levels3)
  (st : pyplot) :
  _validate_infer_indexes p x y indexes = Ok (g, xa, ya) ->
  resolutions_ok g xa ya ks lss wss ->
  plot_combined p x y indexes (KSeq ks) st
  = (Ok tt,
     mk_pyplot
       (figures st ++ bar_figures ks lss wss
                   ++ contour_figures g xa ya ks lss)
       (length ks + shown st)).
Proof.
  intros V R. pose proof (validate_again _ _ _ _ _ _ _ V) as V2.
  unfold plot_combined. rewrite bind_run. unfold lift at 1. rewrite V.
  rewrite bind_run. unfold lift at 1. cbn [try_body].
  rewrite (levels_loop_ok g xa ya ks lss wss [] [] [] R).
  cbn [obind app try_except_TypeError].
  rewrite bind_run. unfold enumerate. rewrite length_map.
  rewrite (combined_bar_loop g xa ya _ _ _ ks lss wss [] [] [] st R)
    by reflexivity.
  rewrite (combined_contour_loop g xa ya _ _ _ V2 ks lss wss [] [] [] _ R)
    by reflexivity.
  cbn [figures shown]. rewrite <- app_assoc. reflexivity.
Qed.

(** X13: an error of a scheme inside the loop that is not a [TypeError]
    ends the combined driver with that error before anything is drawn. *)
Theorem scheme_error_draws_nothing
  (p : ndarray) (x y : option axis) (indexes : indexes_t)
  (g : ndarray) (xa ya : axis) (pre post : list Z) (ki : Z) (e : exn)
  (st : pyplot) :
  _validate_infer_indexes p x y indexes = Ok (g, xa, ya) ->
  Forall (fun kj => exists ls, scheme_levels g (KInt kj) = Ok ls) pre ->
  scheme_levels g (KInt ki) = Raise e ->
  is_TypeError e = false ->
  plot_combined p x y indexes (KSeq (pre ++ ki :: post)) st = (Raise e, st).
Proof.
  intros V Hpre He Hty.
  unfold plot_combined. rewrite bind_run. unfold lift at 1. rewrite V.
  rewrite bind_run. unfold lift at 1. cbn [try_body].
  rewrite (levels_loop_raises g e ki post pre _ Hpre He).
  cbn [obind try_except_TypeError]. rewrite Hty. reflexivity.
Qed.

(** X14: a [TypeError] of a scheme inside the loop is taken for a scalar
    [k]: the levels computed so far are dropped and the schemes are asked
    again with the whole sequence as the one resolution.  What they raise
    then is raised (the first [TypeError] is lost); what they return is
    drawn as a single bar figure and a single contour figure whose titles
    carry the text of the sequence. *)
Theorem type_error_in_loop_retries_with_sequence
  (p : ndarray) (x y : option axis) (indexes : indexes_t)
  (g : ndarray) (xa ya : axis) (pre post : list Z) (ki : Z) (msg : string)
  (st : pyplot) :
  _validate_infer_indexes p x y indexes = Ok (g, xa, ya) ->
  Forall (fun kj => exists ls, scheme_levels g (KInt kj) = Ok ls) pre ->
  scheme_levels g (KInt ki) = Raise (TypeError msg) ->
  let k := KSeq (pre ++ ki :: post) in
  (forall e, scheme_levels g k = Raise e ->
     plot_combined p x y indexes k st = (Raise e, st)) /\
  (forall ls ws,
     scheme_levels g k = Ok ls ->
     renders_ok g xa ya ls ws ->
     plot_combined p x y indexes k st
     = (Ok tt,
        mk_pyplot
          (figures st ++ [bar_figure k ls ws; contour_figure k g xa ya ls])
          (S (shown st)))).
Proof.
  intros V Hpre He k. pose proof (validate_again _ _ _ _ _ _ _ V) as V2.
  subst k. split.
  - intros e L.
    unfold plot_combined. rewrite bind_run. unfold lift at 1. rewrite V.
    rewrite bind_run. unfold lift at 1. cbn [try_body].
    rewrite (levels_loop_raises g _ ki post pre _ Hpre He).
    cbn [obind try_except_TypeError is_TypeError]. unfold except_body.
    rewrite L. reflexivity.
  - intros [[l0 l1] l2] ws L R.
    unfold plot_combined. rewrite bind_run. unfold lift at 1. rewrite V.
    rewrite bind_run. unfold lift at 1. cbn [try_body].
    rewrite (levels_loop_raises g _ ki post pre _ Hpre He).
    cbn [obind try_except_TypeError is_TypeError]. unfold except_body.
    rewrite L.
    cbn -[plot_contour_levels_stat contour_comparision_plot_2d combined_labels
          bar_figure contour_figure].
    unfold bind, lift, ret.
    rewrite (combined_bar_step g xa ya _ l0 l1 l2 ws st R).
    rewrite (combined_contour_step g xa ya _ l0 l1 l2 ws _ V2 R).
    cbn [figures shown]. rewrite <- app_assoc. reflexivity.
Qed.

(** X15: whatever its arguments and whatever the collaborators answer,
    the combined driver leaves every figure that existed before as it
    was: it only appends figures, and the count of [show] calls never
    goes down. *)
Theorem plot_combined_frame
  (p : ndarray) (x y : option axis) (indexes : indexes_t) (k : kval)
  (st : pyplot) :
  let st' := snd (plot_combined p x y indexes k st) in
  (exists new, figures st' = figures st ++ new) /\ shown st <= shown st'.
Proof.
  cbv zeta.
  set (P := fun st' : pyplot =>
              (exists new, figures st' = figures st ++ new)
              /\ shown st <= shown st').
  change (P (snd (plot_combined p x y indexes k st))).
  assert (P0 : P st).
  { split; [exists []; rewrite app_nil_r; reflexivity | lia]. }
  unfold plot_combined. rewrite bind_run. unfold lift at 1.
  destruct (_validate_infer_indexes p x y indexes) as [[[g xa] ya]|e];
    [|exact P0].
  rewrite bind_run. unfold lift at 1.
  destruct (try_except_TypeError (try_body g k) (except_body g k))
    as [[[[A B] C] k']|e]; [|exact P0].
  rewrite bind_run.
  match goal with |- context [for_each ?l ?b st] =>
    assert (P1 : P (snd (for_each l b st)));
    [|destruct (for_each l b st) as [[[]|e] st1]; cbn [snd] in P1;
      [|exact P1]]
  end.
  - apply for_each_keeps; [|exact P0].
    intros [i kj] st2 _ ((new & Hfig) & Hsh). unfold bind at 1, lift at 1.
    destruct (list_getitem A i) as [l0|e]; [|split; eauto].
    unfold bind at 1, lift at 1.
    destruct (list_getitem B i) as [l1|e]; [|split; eauto].
    unfold bind at 1, lift at 1.
    destruct (list_getitem C i) as [l2|e]; [|split; eauto].
    cbv zeta.
    destruct (bar_comparison_extends [l0; l1; l2]
                (repeat g (length [l0; l1; l2])) (combined_labels kj) st2)
      as (Hsh' & Hfig').
    split.
    + destruct Hfig' as [-> | (axs & -> & _)]; rewrite Hfig.
      * eauto.
      * rewrite <- app_assoc. eauto.
    + rewrite Hsh'. exact Hsh.
  - apply for_each_keeps; [|exact P1].
    intros [i kj] st2 _ ((new & Hfig) & Hsh). unfold bind at 1, lift at 1.
    destruct (list_getitem A i) as [l0|e]; [|split; eauto].
    unfold bind at 1, lift at 1.
    destruct (list_getitem B i) as [l1|e]; [|split; eauto].
    unfold bind at 1, lift at 1.
    destruct (list_getitem C i) as [l2|e]; [|split; eauto].
    destruct (contour_comparison_extends [l0; l1; l2] g (Some xa) (Some ya)
                None (combined_labels kj) st2) as (Hsh' & Hfig').
    split.
    + destruct Hfig' as [-> | (axs & ->)]; rewrite Hfig.
      * eauto.
      * rewrite <- app_assoc. eauto.
    + destruct Hsh' as [(_ & ->) | (_ & ->)]; lia.
Qed.

End MoreDriverProperties.

Lemma bar_comparison_general_witness :
  plot_contour_levels_stat [[1 # 2]; [1 # 4; 1 # 2]]%Q [grid2x2; grid2x2]
    ["a"; "b"]%string empty_pyplot
  = (Ok tt,
     mk_pyplot
       [mk_figure (8, 2)
          [mk_axes "a" [Bar ["L1"; "L2"]%string [1; 1]%Q];
           mk_axes "b" [Bar ["L1"; "L2"; "L3"]%string [1; 1; 1]%Q]]]
       0).
Proof.
  apply (bar_comparison_general [[1 # 2]; [1 # 4; 1 # 2]]%Q [grid2x2; grid2x2]
           ["a"; "b"]%string
           [sample_weights [1 # 2]%Q; sample_weights [1 # 4; 1 # 2]%Q]
           empty_pyplot).
  - simpl. lia.
  - reflexivity.
  - simpl. auto.
Defined.

Lemma single_scheme_contour_comparison_raises_witness :
  contour_comparision_plot_2d [[1 # 2]%Q] pdf4 None None None
    ["a"%string] empty_pyplot
  = (Raise (TypeError "'Axes' object is not iterable"%string),
     mk_pyplot [mk_figure (4, 4) [blank_axes]] 0).
Proof.
  apply (single_scheme_contour_comparison_raises [1 # 2]%Q pdf4 None None None
           ["a"%string] grid2x2 unit_axis2 unit_axis2 empty_pyplot).
  reflexivity.
Defined.

Lemma contour_comparison_short_labels_witness :
  contour_comparision_plot_2d [[1 # 2]; [1 # 4]; [3 # 4]]%Q pdf4 None None None
    ["a"; "b"]%string empty_pyplot
  = (Ok tt,
     mk_pyplot
       [mk_figure (12, 4)
          [mk_axes "a" [Contour unit_axis2 unit_axis2 grid2x2 [1 # 2]%Q];
           mk_axes "b" [Contour unit_axis2 unit_axis2 grid2x2 [1 # 4]%Q];
           blank_axes]]
       1).
Proof.
  apply (contour_comparison_short_labels [1 # 2]%Q [1 # 4]%Q [3 # 4]%Q
           pdf4 None None None "a"%string "b"%string
           grid2x2 unit_axis2 unit_axis2 [] empty_pyplot);
    reflexivity.
Defined.

Lemma normalisation_failure_draws_nothing_witness :
  contour_comparision_plot_2d [[1 # 2]; [1 # 4]]%Q pdf5 None None None
    ["a"; "b"]%string empty_pyplot
  = (Raise (ValueError msg_infer), empty_pyplot)
  /\ plot_combined pdf5 None None None (KInt 3) empty_pyplot
     = (Raise (ValueError msg_infer), empty_pyplot).
Proof.
  apply normalisation_failure_draws_nothing. reflexivity.
Defined.

Lemma plot_combined_sequence_witness :
  plot_combined pdf4 None None None (KSeq [2; 3; 2]%Z) empty_pyplot
  = (Ok tt,
     mk_pyplot
       (bar_figures [2; 3; 2]%Z
          [sample_levels 2; sample_levels 3; sample_levels 2]
          [sample_weights3 (sample_levels 2);
           sample_weights3 (sample_levels 3);
           sample_weights3 (sample_levels 2)]
        ++ contour_figures grid2x2 unit_axis2 unit_axis2 [2; 3; 2]%Z
             [sample_levels 2; sample_levels 3; sample_levels 2])
       3)
  /\ plot_combined pdf4 None None None (KSeq []) empty_pyplot
     = (Ok tt, empty_pyplot).
Proof.
  split.
  - apply (plot_combined_sequence pdf4 None None None
             grid2x2 unit_axis2 unit_axis2 [2; 3; 2]%Z
             [sample_levels 2; sample_levels 3; sample_levels 2]
             [sample_weights3 (sample_levels 2);
              sample_weights3 (sample_levels 3);
              sample_weights3 (sample_levels 2)]
             empty_pyplot).
    + reflexivity.
    + cbn [resolutions_ok].
      split; [reflexivity|]. split; [apply sample_renders; auto|].
      split; [reflexivity|]. split; [apply sample_renders; auto|].
      split; [reflexivity|]. split; [apply sample_renders; auto|].
      exact I.
  - apply (plot_combined_sequence pdf4 None None None
             grid2x2 unit_axis2 unit_axis2 [] [] [] empty_pyplot).
    + reflexivity.
    + exact I.
Defined.

Lemma scheme_error_draws_nothing_witness :
  plot_combined pdf4 None None None (KSeq [2; 0; 3]%Z) empty_pyplot
  = (Raise (ValueError "k must be at least 1"%string), empty_pyplot).
Proof.
  apply (scheme_error_draws_nothing pdf4 None None None
           grid2x2 unit_axis2 unit_axis2 [2%Z] [3%Z] 0%Z).
  - reflexivity.
  - constructor; [|constructor]. eexists. reflexivity.
  - reflexivity.
  - reflexivity.
Defined.

Lemma type_error_in_loop_retries_with_sequence_witness :
  @plot_combined vector_collaborators pdf4 None None None
    (KSeq [2; 0]%Z) empty_pyplot
  = (Ok tt,
     mk_pyplot
       [bar_figure (KSeq [2; 0]%Z) (vector_levels [2; 0]%Z)
          (sample_weights3 (vector_levels [2; 0]%Z));
        contour_figure (KSeq [2; 0]%Z) grid2x2 unit_axis2 unit_axis2
          (vector_levels [2; 0]%Z)]
       1)
  /\ scheme_title 0 (KSeq [2; 0]%Z) = "old (k=[2, 0])"%string
  /\ @plot_combined vector_collaborators pdf4 None None None
       (KSeq [0; -1]%Z) empty_pyplot
     = (Raise (ValueError "negative entry in k"%string), empty_pyplot).
Proof.
  split; [|split; [reflexivity|]].
  - apply (@type_error_in_loop_retries_with_sequence vector_collaborators
             pdf4 None None None grid2x2 unit_axis2 unit_axis2
             [2%Z] [] 0%Z "k must be positive"%string empty_pyplot).
    + reflexivity.
    + constructor; [|constructor]. eexists. reflexivity.
    + reflexivity.
    + reflexivity.
    + repeat split.
  - apply (@type_error_in_loop_retries_with_sequence vector_collaborators
             pdf4 None None None grid2x2 unit_axis2 unit_axis2
             [] [-1]%Z 0%Z "k must be positive"%string empty_pyplot).
    + reflexivity.
    + constructor.
    + reflexivity.
    + reflexivity.
Defined.

(** * The bar labels *)

Lemma str_int_inj (a b : Z) : str_int a = str_int b -> a = b.
Proof.
  unfold str_int. intros H.
  assert (Hnil : forall z, Z.to_int z <> Decimal.Pos Decimal.Nil
                           /\ Z.to_int z <> Decimal.Neg Decimal.Nil).
  { intros [|q|q]; simpl; split; try discriminate;
      intros [= E]; exact (DecimalPos.Unsigned.to_uint_nonnil q E). }
  apply DecimalZ.to_int_inj.
  assert (E : Some (Z.to_int a) = Some (Z.to_int b)).
  { rewrite <- (NilZero.isi (Z.to_int a)), <- (NilZero.isi (Z.to_int b));
      try apply Hnil.
    rewrite H. reflexivity. }
  congruence.
Qed.

(** X16: the bar names [L1, L2, ...] that the bar comparison builds for
    a scheme are one more than its levels and pairwise different, so that
    every weight gets a bar of its own. *)
Theorem level_labels_distinct (levels : list Q) :
  length (level_labels levels) = length levels + 1
  /\ NoDup (level_labels levels).
Proof.
  unfold level_labels. split.
  - rewrite length_map, length_seq. reflexivity.
  - apply Finite.Injective_map_NoDup; [|apply seq_NoDup].
    intros i j H. injection H as H. apply str_int_inj in H. lia.
Qed.

(** * Properties of the single-axes plots *)

Section SingleAxesProperties.

Context {utils : Utils}.

Lemma wfor_each_emit {A} (f : A -> call) (l : list A) :
  wfor_each l (fun a => emit (f a)) = (Ok tt, map f l).
Proof.
  induction l as [|a t IH]; [reflexivity|].
  cbn [wfor_each]. unfold wbind. cbn [emit]. rewrite IH. reflexivity.
Qed.

Lemma insert_sorted_perm (v : Q) (l : list Q) :
  Permutation (insert_sorted v l) (v :: l).
Proof.
  induction l as [|a t IH]; [reflexivity|]. cbn [insert_sorted].
  destruct (Qle_bool v a); [reflexivity|].
  rewrite IH. apply perm_swap.
Qed.

Lemma np_sort_perm (l : list Q) : Permutation (np_sort l) l.
Proof.
  induction l as [|a t IH]; [reflexivity|].
  cbn [np_sort fold_right]. rewrite insert_sorted_perm.
  apply perm_skip. exact IH.
Qed.

Lemma insert_sorted_ascending (v : Q) (l : list Q) :
  ascending l -> ascending (insert_sorted v l).
Proof.
  induction l as [|a t IH]; intros Hl; [simpl; auto|].
  cbn [insert_sorted].
  destruct (Qle_bool v a) eqn:E.
  - apply Qle_bool_iff in E. split; assumption.
  - assert (Hav : (a <= v)%Q).
    { apply Qlt_le_weak, Qnot_le_lt. intros H.
      apply Qle_bool_iff in H. congruence. }
    destruct Hl as [Hhead Htail]. specialize (IH Htail).
    split; [|exact IH].
    destruct t as [|b t']; cbn [insert_sorted] in *.
    + exact Hav.
    + destruct (Qle_bool v b); [exact Hav | exact Hhead].
Qed.

Lemma np_sort_ascending (l : list Q) : ascending (np_sort l).
Proof.
  induction l as [|a t IH]; [exact I|].
  apply insert_sorted_ascending. exact IH.
Qed.




Lemma ensure_axes_run (ax_given : bool) :
  ensure_axes ax_given = (Ok tt, calls_of_ensure ax_given).
Proof. destruct ax_given; reflexivity. Qed.

Lemma add_level_lines_run (levels : list Q) (kw : kwargs) :
  add_level_lines levels kw = (Ok tt, level_lines levels kw).
Proof.
  unfold add_level_lines.
  apply (wfor_each_emit (fun lvl => AxHLine lvl kw)).
Qed.

Lemma add_cross_lines_run (levels p : list Q) (kw : kwargs) :
  add_cross_lines levels p kw
  = match crossing_indexes levels p with
    | Ok cs => (Ok tt, cross_lines cs kw)
    | Raise e => (Raise e, [])
    end.
Proof.
  unfold add_cross_lines, wbind, wlift.
  destruct (crossing_indexes levels p) as [cs|e]; [|reflexivity].
  rewrite (wfor_each_emit (fun v => AxVLine v kw)). reflexivity.
Qed.

Lemma flatten_size (p : ndarray) : size (flatten p) = size p.
Proof. unfold flatten, size, prod_shape. simpl. lia. Qed.

(** All the runs of [plot_density]. *)
Lemma plot_density_run (levels : list Q) (p : ndarray) (ax_given : bool) :
  plot_density levels p ax_given
  = match crossing_indexes levels (np_sort (data p)) with
    | Ok cs =>
        (Ok tt,
         calls_of_ensure ax_given ++
         AxSetTitle "density" :: AxHLine 0 grey_thin ::
         level_lines levels black_thin ++ cross_lines cs black_dashed ++
         [AxStep (np_arange (size p)) (np_sort (data p))])
    | Raise e =>
        (Raise e,
         calls_of_ensure ax_given ++
         AxSetTitle "density" :: AxHLine 0 grey_thin ::
         level_lines levels black_thin)
    end.
Proof.
  unfold plot_density. rewrite ensure_axes_run, add_level_lines_run,
    add_cross_lines_run, flatten_size.
  cbn [flatten data].
  destruct (crossing_indexes levels (np_sort (data p))) as [cs|e];
    unfold wbind, emit; cbn [app]; rewrite ?app_nil_r; reflexivity.
Qed.

(** All the runs of [plot_cumulative_density]. *)
Lemma plot_cumulative_density_run (levels : list Q) (p : ndarray)
  (ax_given : bool) :
  plot_cumulative_density levels p ax_given
  = match crossing_indexes levels (np_sort (data p)) with
    | Ok _ =>
        match crossing_indexes levels (data p) with
        | Ok cs =>
            (Ok tt,
             calls_of_ensure ax_given ++
             AxSetTitle "cumulative density" :: AxHLine 0 grey_thin ::
             cross_lines cs black_dashed ++
             [AxStep (np_arange (size p)) (np_cumsum (np_sort (data p)))])
        | Raise e =>
            (Raise e,
             calls_of_ensure ax_given ++
             [AxSetTitle "cumulative density"; AxHLine 0 grey_thin])
        end
    | Raise e => (Raise e, [])
    end.
Proof.
  unfold plot_cumulative_density.
  rewrite ensure_axes_run, add_cross_lines_run, flatten_size.
  cbn [flatten data]. unfold wlift.
  destruct (crossing_indexes levels (np_sort (data p))) as [cs1|e];
    [|reflexivity].
  destruct (crossing_indexes levels (data p)) as [cs|e];
    unfold wbind, emit; cbn [app]; rewrite ?app_nil_r; reflexivity.
Qed.

(** X17: when [crossing_indexes] answers, [plot_density] sets the title,
    draws the grey zero line, one horizontal line per level in the order
    given (duplicates included), one vertical line per crossing of the
    sorted values, and the step curve; for a well-formed array the curve
    has as many abscissas [0 .. size - 1] as values, and its values are
    those of [p] in ascending order. *)
Theorem plot_density_draws
  (levels : list Q) (p : ndarray) (ax_given : bool) (cs : list nat) :
  well_formed p ->
  crossing_indexes levels (np_sort (data p)) = Ok cs ->
  plot_density levels p ax_given
  = (Ok tt,
     calls_of_ensure ax_given ++
     AxSetTitle "density" :: AxHLine 0 grey_thin ::
     level_lines levels black_thin ++ cross_lines cs black_dashed ++
     [AxStep (np_arange (size p)) (np_sort (data p))])
  /\ length (np_arange (size p)) = length (np_sort (data p))
  /\ ascending (np_sort (data p))
  /\ Permutation (np_sort (data p)) (data p).
Proof.
  intros Hwf Hcs. rewrite plot_density_run, Hcs.
  split; [reflexivity|]. split; [|split].
  - unfold np_arange. rewrite length_seq.
    rewrite (Permutation_length (np_sort_perm (data p))).
    symmetry. exact Hwf.
  - apply np_sort_ascending.
  - apply np_sort_perm.
Qed.

(** X18: when [crossing_indexes] raises on the sorted values, the two
    density plots stop at different points.  [plot_cumulative_density]
    asks for the crossings before it touches any axes: nothing is drawn
    and no figure is made.  [plot_density] asks after the title, the zero
    line and the level lines: those stay drawn (on a figure it has made,
    if no axes was passed). *)
Theorem crossing_failure_leaves
  (levels : list Q) (p : ndarray) (ax_given : bool) (e : exn) :
  crossing_indexes levels (np_sort (data p)) = Raise e ->
  plot_cumulative_density levels p ax_given = (Raise e, [])
  /\ plot_density levels p ax_given
     = (Raise e,
        calls_of_ensure ax_given ++
        AxSetTitle "density" :: AxHLine 0 grey_thin ::
        level_lines levels black_thin).
Proof.
  intros He. rewrite plot_cumulative_density_run, plot_density_run, He.
  split; reflexivity.
Qed.


(** X20: an axes that was passed in is the one drawn on: with [ax]
    given, [plot_density], [plot_cumulative_density] and [contour] never
    call [plt.figure] or [add_subplot], whatever [crossing_indexes]
    answers; and [contour] hands [x], [y] and the values to [ax.contour]
    in that order. *)
Theorem supplied_axes_make_no_figure
  (levels : list Q) (p : ndarray) (x y : axis) :
  Forall (fun c => makes_figure c = false) (snd (plot_density levels p true))
  /\ Forall (fun c => makes_figure c = false)
       (snd (plot_cumulative_density levels p true))
  /\ contour p x y true = (Ok tt, [AxContour x y p])
  /\ contour p x y false
     = (Ok tt, [PltFigure; AddSubplot 111; AxContour x y p]).
Proof.
  assert (Hl : forall ls kw, Forall (fun c => makes_figure c = false)
                                    (level_lines ls kw)).
  { intros ls kw. unfold level_lines. apply Forall_map, Forall_forall.
    reflexivity. }
  assert (Hc : forall cs kw, Forall (fun c => makes_figure c = false)
                                    (cross_lines cs kw)).
  { intros cs kw. unfold cross_lines. apply Forall_map, Forall_forall.
    reflexivity. }
  split; [|split; [|split; reflexivity]].
  - rewrite plot_density_run.
    destruct (crossing_indexes levels (np_sort (data p)));
      cbn [snd calls_of_ensure app].
    + repeat constructor. apply Forall_app. split; [apply Hl|].
      apply Forall_app. split; [apply Hc|]. repeat constructor.
    + repeat constructor. apply Hl.
  - rewrite plot_cumulative_density_run.
    destruct (crossing_indexes levels (np_sort (data p))); cbn [snd];
      [|constructor].
    destruct (crossing_indexes levels (data p)); cbn [snd calls_of_ensure app].
    + repeat constructor. apply Forall_app. split; [apply Hc|].
      repeat constructor.
    + repeat constructor.
Qed.

End SingleAxesProperties.

Lemma plot_density_draws_witness :
  plot_density [2; 2]%Q (mk_ndarray [2; 2] [3; 1; 4; 1]%Q) false
  = (Ok tt,
     [PltFigure; AddSubplot 111; AxSetTitle "density"; AxHLine 0 grey_thin;
      AxHLine 2 black_thin; AxHLine 2 black_thin;
      AxVLine 2 black_dashed; AxVLine 2 black_dashed;
      AxStep [0; 1; 2; 3] [1; 1; 3; 4]%Q])
  /\ ascending [1; 1; 3; 4]%Q.
Proof.
  destruct (plot_density_draws (utils := sample_utils) [2; 2]%Q (mk_ndarray [2; 2] [3; 1; 4; 1]%Q)
              false [2; 2] eq_refl eq_refl) as (Hrun & _ & Hasc & _).
  split; [exact Hrun | exact Hasc].
Defined.

Lemma crossing_failure_leaves_witness :
  plot_cumulative_density [] (mk_ndarray [2] [3; 1]%Q) false
  = (Raise (ValueError "no levels"%string), [])
  /\ plot_density [] (mk_ndarray [2] [3; 1]%Q) false
     = (Raise (ValueError "no levels"%string),
        [PltFigure; AddSubplot 111; AxSetTitle "density";
         AxHLine 0 grey_thin]).
Proof.
  apply (crossing_failure_leaves (utils := sample_utils) [] (mk_ndarray [2] [3; 1]%Q) false).
  reflexivity.
Defined.

